(** * The Singleton example: a shared StateManager behind two facades

    Shallow embedding of [src/creational/singleton/example.ts].

    The program is about sharing: one [StateManager] object is reached by
    every [SessionHandler] and, through it, by every [KKTLiveChatSDK].  The
    embedding therefore keeps the JavaScript object store explicit.  Objects
    live in a heap and are named by references; the static field
    [StateManager.instance], the console and the heap make up the [World]
    that every operation threads through.  Arrays hold references to the
    message and attachment objects that were handed in, as they do in
    JavaScript. *)

From Stdlib Require Import ZArith String List Lia.
From stdpp Require Import base option list.

Set Warnings "-clear-no-such-hyp".

Local Open Scope string_scope.
Local Open Scope list_scope.

(** ** Data model (lines 9-22) *)

(** References into the heap. *)
Abbreviation loc := nat (only parsing).

(** [File] is a type of the host platform; the program only carries it. *)
Inductive File : Type := FileHandle (h : N).

(** The interfaces [Message] and [Attachment].  An optional field is an
    [option]; the [number] fields hold a time in milliseconds and a size,
    and the program does no arithmetic on them. *)
Module Message.
Record t : Type := make
  { id : option string;
    content : string;
    sender : string;
    timestamp : Z }.
End Message.

Module Attachment.
Record t : Type := make
  { id : option string;
    url : string;
    type : string;
    size : Z;
    file : option File }.
End Attachment.

(** The union type ["connected" | "connecting" | "disconnected"]. *)
Inductive ConnectionStatus : Type := Connected | Connecting | Disconnected.

(** The instance fields of a [StateManager] (lines 27-30).  The two arrays
    are objects of their own, so the fields hold references. *)
Record StateManagerFields : Type :=
  { connectionStatus : ConnectionStatus;
    messages : loc;
    attachments : loc }.

(** Heap objects.  A [KKTLiveChatSDK] object has the one field
    [sessionHandler]; [None] stands for [undefined], the value the field has
    until the constructor assigns it. *)
Inductive Obj : Type :=
| OMessage (m : Message.t)
| OAttachment (a : Attachment.t)
| OArray (elems : list loc)
| OStateManager (f : StateManagerFields)
| OSessionHandler
| OKKTLiveChatSDK (sessionHandler : option loc).

(** One argument of a [console.log] call: a string, or an object as it is
    printed at the time of the call. *)
Inductive LogArg : Type :=
| LStr (s : string)
| LObj (o : Obj).

(** The methods of a [StateManager] instance, with their arguments. *)
Inductive Method : Type :=
| MSetConnectionStatus (status : ConnectionStatus)
| MGetConnectionStatus
| MPushMessage (message : loc)
| MGetMessages
| MPushAttachment (attachment : loc)
| MGetAttachments.

(** Calls into the [StateManager] class: the static accessor, or a method
    invoked on a receiver. *)
Inductive Event : Type :=
| EvGetInstance
| EvCall (receiver : loc) (m : Method).

(** The state of the running program.  [calls] is a history of the calls
    made into [StateManager]; no operation reads it, it is there so that
    statements about how often the class is called can be written down. *)
Record World : Type :=
  { heap : list Obj;
    StateManager_instance : option loc;
    console : list (list LogArg);
    calls : list Event }.

(** The state in which the module starts to run: nothing allocated, the
    static field [instance] undefined. *)
Definition init_world : World :=
  {| heap := []; StateManager_instance := None; console := []; calls := [] |}.

(** ** A state and error monad

    An operation either yields a result and a new world, or gets stuck
    ([None]): a method looked up on an object that does not have it, which
    is a [TypeError] in JavaScript. *)

Definition M (A : Type) : Type := World -> option (A * World).

Definition ret {A} (a : A) : M A := fun w => Some (a, w).

Definition bind {A B} (c : M A) (k : A -> M B) : M B :=
  fun w => match c w with
           | Some (a, w') => k a w'
           | None => None
           end.

Definition fail {A} : M A := fun _ => None.

Declare Scope m_scope.
Delimit Scope m_scope with M.
Notation "x <- c ;; k" := (bind c (fun x => k))
  (at level 100, c at next level, right associativity) : m_scope.
Notation "c ;; k" := (bind c (fun _ => k))
  (at level 100, right associativity) : m_scope.
Local Open Scope m_scope.

(** The result of a computation. *)
Definition evalM {A} (c : M A) (w : World) : option A := fst <$> c w.

(** *** Primitive effects *)

(** Allocation of a new object: it gets the next free reference. *)
Definition alloc (o : Obj) : M loc := fun w =>
  Some (length (heap w),
        {| heap := heap w ++ [o];
           StateManager_instance := StateManager_instance w;
           console := console w;
           calls := calls w |}).

Definition load (l : loc) : M Obj := fun w =>
  match heap w !! l with
  | Some o => Some (o, w)
  | None => None
  end.

Definition store (l : loc) (o : Obj) : M unit := fun w =>
  Some (tt,
        {| heap := <[l := o]> (heap w);
           StateManager_instance := StateManager_instance w;
           console := console w;
           calls := calls w |}).

Definition get_instance_field : M (option loc) := fun w =>
  Some (StateManager_instance w, w).

Definition set_instance_field (l : loc) : M unit := fun w =>
  Some (tt,
        {| heap := heap w;
           StateManager_instance := Some l;
           console := console w;
           calls := calls w |}).

Definition console_log (args : list LogArg) : M unit := fun w =>
  Some (tt,
        {| heap := heap w;
           StateManager_instance := StateManager_instance w;
           console := console w ++ [args];
           calls := calls w |}).

Definition record (e : Event) : M unit := fun w =>
  Some (tt,
        {| heap := heap w;
           StateManager_instance := StateManager_instance w;
           console := console w;
           calls := calls w ++ [e] |}).

(** Typed loads: the object behind a reference, when it has the expected
    class. *)
Definition load_fields (this : loc) : M StateManagerFields :=
  o <- load this ;;
  match o with
  | OStateManager f => ret f
  | _ => fail
  end.

Definition load_array (a : loc) : M (list loc) :=
  o <- load a ;;
  match o with
  | OArray elems => ret elems
  | _ => fail
  end.

Fixpoint mapM {A B} (f : A -> M B) (l : list A) : M (list B) :=
  match l with
  | [] => ret []
  | x :: l' => y <- f x ;; ys <- mapM f l' ;; ret (y :: ys)
  end.

(** ** class StateManager (lines 24-61) *)

Module StateManager.

(** [new StateManager()]: the field initialisers of lines 27-30.  The two
    array literals are objects of their own, allocated next to the
    instance. *)
Definition new : M loc :=
  ms <- alloc (OArray []) ;;
  ats <- alloc (OArray []) ;;
  alloc (OStateManager {| connectionStatus := Disconnected;
                          messages := ms;
                          attachments := ats |}).

(** Lines 32-38.  An object is truthy, so [!this.instance] holds exactly
    when the static field is still undefined. *)
Definition getInstance : M loc :=
  record EvGetInstance ;;
  inst <- get_instance_field ;;
  match inst with
  | None =>
      i <- new ;;
      set_instance_field i ;;
      ret i
  | Some i => ret i
  end.

(** Lines 40-42. *)
Definition setConnectionStatus (this : loc) (status : ConnectionStatus)
  : M unit :=
  record (EvCall this (MSetConnectionStatus status)) ;;
  f <- load_fields this ;;
  store this (OStateManager {| connectionStatus := status;
                               messages := messages f;
                               attachments := attachments f |}).

(** Lines 43-45. *)
Definition getConnectionStatus (this : loc) : M ConnectionStatus :=
  record (EvCall this MGetConnectionStatus) ;;
  f <- load_fields this ;;
  ret (connectionStatus f).

(** Lines 47-50: the message is logged, then [this.messages] is replaced
    by a new array, the old elements followed by the message. *)
Definition pushMessage (this : loc) (message : loc) : M unit :=
  record (EvCall this (MPushMessage message)) ;;
  o <- load message ;;
  console_log [LStr "Pushing message:"; LObj o] ;;
  f <- load_fields this ;;
  old <- load_array (messages f) ;;
  arr <- alloc (OArray (old ++ [message])) ;;
  store this (OStateManager {| connectionStatus := connectionStatus f;
                               messages := arr;
                               attachments := attachments f |}).

(** Lines 51-53: the reference held in the field, not a copy. *)
Definition getMessages (this : loc) : M loc :=
  record (EvCall this MGetMessages) ;;
  f <- load_fields this ;;
  ret (messages f).

(** Lines 55-57: [Array.prototype.push] extends the array in place. *)
Definition pushAttachment (this : loc) (attachment : loc) : M unit :=
  record (EvCall this (MPushAttachment attachment)) ;;
  f <- load_fields this ;;
  old <- load_array (attachments f) ;;
  store (attachments f) (OArray (old ++ [attachment])).

(** Lines 58-60. *)
Definition getAttachments (this : loc) : M loc :=
  record (EvCall this MGetAttachments) ;;
  f <- load_fields this ;;
  ret (attachments f).

End StateManager.

(** ** class SessionHandler (lines 69-93) *)

(** Method lookup on a receiver: the call goes through when the receiver is
    a [SessionHandler] object. *)
Definition SessionHandler_receiver (this : loc) : M unit :=
  o <- load this ;;
  match o with
  | OSessionHandler => ret tt
  | _ => fail
  end.

Module SessionHandler.

(** Lines 70-72. *)
Definition new : M loc :=
  this <- alloc OSessionHandler ;;
  console_log [LStr "SessionHandler constructor"] ;;
  ret this.

(** Lines 74-76. *)
Definition connect (this : loc) : M unit :=
  SessionHandler_receiver this ;;
  i <- StateManager.getInstance ;;
  StateManager.setConnectionStatus i Connecting.

(** Lines 77-79. *)
Definition disconnect (this : loc) : M unit :=
  SessionHandler_receiver this ;;
  i <- StateManager.getInstance ;;
  StateManager.setConnectionStatus i Disconnected.

(** Lines 81-83. *)
Definition sendMessage (this : loc) (message : loc) : M unit :=
  SessionHandler_receiver this ;;
  i <- StateManager.getInstance ;;
  StateManager.pushMessage i message.

(** Lines 84-86. *)
Definition sendAttachment (this : loc) (attachment : loc) : M unit :=
  SessionHandler_receiver this ;;
  i <- StateManager.getInstance ;;
  StateManager.pushAttachment i attachment.

(** Lines 87-89. *)
Definition getMessages (this : loc) : M loc :=
  SessionHandler_receiver this ;;
  i <- StateManager.getInstance ;;
  StateManager.getMessages i.

(** Lines 90-92. *)
Definition getAttachments (this : loc) : M loc :=
  SessionHandler_receiver this ;;
  i <- StateManager.getInstance ;;
  StateManager.getAttachments i.

End SessionHandler.

(** ** class KKTLiveChatSDK (lines 95-122) *)

(** [this.sessionHandler], read from a [KKTLiveChatSDK] receiver. *)
Definition load_sessionHandler (this : loc) : M (option loc) :=
  o <- load this ;;
  match o with
  | OKKTLiveChatSDK h => ret h
  | _ => fail
  end.

(** [target?.method(...)]: when the target is undefined the call is not
    made and the expression is undefined. *)
Definition optional_chain {A} (target : option loc) (method : loc -> M A)
  : M (option A) :=
  match target with
  | None => ret None
  | Some t => a <- method t ;; ret (Some a)
  end.

Module KKTLiveChatSDK.

(** Lines 98-101: the field is assigned in the constructor body. *)
Definition new : M loc :=
  this <- alloc (OKKTLiveChatSDK None) ;;
  console_log [LStr "KKTLiveChatSDK constructor"] ;;
  h <- SessionHandler.new ;;
  store this (OKKTLiveChatSDK (Some h)) ;;
  ret this.

(** Lines 103-105. *)
Definition connect (this : loc) : M unit :=
  h <- load_sessionHandler this ;;
  optional_chain h SessionHandler.connect ;;
  ret tt.

(** Lines 106-108. *)
Definition disconnect (this : loc) : M unit :=
  h <- load_sessionHandler this ;;
  optional_chain h SessionHandler.disconnect ;;
  ret tt.

(** Lines 110-112. *)
Definition sendMessage (this : loc) (message : loc) : M unit :=
  h <- load_sessionHandler this ;;
  optional_chain h (fun t => SessionHandler.sendMessage t message) ;;
  ret tt.

(** Lines 113-115. *)
Definition sendAttachment (this : loc) (attachment : loc) : M unit :=
  h <- load_sessionHandler this ;;
  optional_chain h (fun t => SessionHandler.sendAttachment t attachment) ;;
  ret tt.

(** Lines 116-118: the result is the array, or undefined. *)
Definition getMessages (this : loc) : M (option loc) :=
  h <- load_sessionHandler this ;;
  optional_chain h SessionHandler.getMessages.

(** Lines 119-121. *)
Definition getAttachments (this : loc) : M (option loc) :=
  h <- load_sessionHandler this ;;
  optional_chain h SessionHandler.getAttachments.

End KKTLiveChatSDK.

(** ** The script (lines 125-141)

    [Date.now()] is read twice; the two readings are inputs of the model. *)

Definition hello (T1 : Z) : Message.t :=
  Message.make None "Hello, how are you?" "John Doe" T1.

Definition help (T2 : Z) : Message.t :=
  Message.make None "I need your help to fix my computer" "John Doe" T2.

(** [array.forEach(callback)], for a callback that leaves the array alone. *)
Definition forEach (array : option loc) (callback : loc -> M unit) : M unit :=
  match array with
  | None => fail
  | Some a =>
      elems <- load_array a ;;
      mapM callback elems ;;
      ret tt
  end.

(** The character written [\n] in the source. *)
Definition newline : Ascii.ascii := Ascii.ascii_of_nat 10.

(** Lines 125-126. *)
Definition main_connect : M loc :=
  sdk <- KKTLiveChatSDK.new ;;
  KKTLiveChatSDK.connect sdk ;;
  ret sdk.

(** Lines 127-136. *)
Definition main_send (T1 T2 : Z) (sdk : loc) : M unit :=
  m1 <- alloc (OMessage (hello T1)) ;;
  KKTLiveChatSDK.sendMessage sdk m1 ;;
  m2 <- alloc (OMessage (help T2)) ;;
  KKTLiveChatSDK.sendMessage sdk m2.

(** Lines 138-141. *)
Definition main_print (sdk : loc) : M unit :=
  console_log [LStr (String newline "Messages to send:")] ;;
  r <- KKTLiveChatSDK.getMessages sdk ;;
  forEach r (fun message => o <- load message ;; console_log [LObj o]).

(** The whole script; the result is the value of the constant [sdk]. *)
Definition main (T1 T2 : Z) : M loc :=
  sdk <- main_connect ;;
  main_send T1 T2 sdk ;;
  main_print sdk ;;
  ret sdk.

(** ** Programs over the public operations

    A client of the three classes allocates message and attachment
    literals, constructs facades, calls the accessor, and calls methods on
    the objects it holds.  [Op] is one such action and [run] a sequence of
    them.  A [StateManager] is only ever made by the accessor. *)

Inductive FacadeCall : Type :=
| Connect
| Disconnect
| SendMessage (message : loc)
| SendAttachment (attachment : loc)
| GetMessages
| GetAttachments.

Inductive Op : Type :=
| NewMessage (m : Message.t)
| NewAttachment (a : Attachment.t)
| NewSessionHandler
| NewKKTLiveChatSDK
| OnSessionHandler (this : loc) (c : FacadeCall)
| OnKKTLiveChatSDK (this : loc) (c : FacadeCall)
| GetInstance
| OnStateManager (this : loc) (m : Method).

(** What a call evaluates to. *)
Inductive Value : Type :=
| VUndefined
| VRef (l : loc)
| VStatus (s : ConnectionStatus).

Definition undefined (c : M unit) : M Value := c ;; ret VUndefined.
Definition reference (c : M loc) : M Value := l <- c ;; ret (VRef l).
Definition reference_or_undefined (c : M (option loc)) : M Value :=
  r <- c ;;
  ret (match r with Some l => VRef l | None => VUndefined end).

Definition call_StateManager (this : loc) (m : Method) : M Value :=
  match m with
  | MSetConnectionStatus s => undefined (StateManager.setConnectionStatus this s)
  | MGetConnectionStatus =>
      s <- StateManager.getConnectionStatus this ;; ret (VStatus s)
  | MPushMessage p => undefined (StateManager.pushMessage this p)
  | MGetMessages => reference (StateManager.getMessages this)
  | MPushAttachment p => undefined (StateManager.pushAttachment this p)
  | MGetAttachments => reference (StateManager.getAttachments this)
  end.

Definition call_SessionHandler (this : loc) (c : FacadeCall) : M Value :=
  match c with
  | Connect => undefined (SessionHandler.connect this)
  | Disconnect => undefined (SessionHandler.disconnect this)
  | SendMessage p => undefined (SessionHandler.sendMessage this p)
  | SendAttachment p => undefined (SessionHandler.sendAttachment this p)
  | GetMessages => reference (SessionHandler.getMessages this)
  | GetAttachments => reference (SessionHandler.getAttachments this)
  end.

Definition call_KKTLiveChatSDK (this : loc) (c : FacadeCall) : M Value :=
  match c with
  | Connect => undefined (KKTLiveChatSDK.connect this)
  | Disconnect => undefined (KKTLiveChatSDK.disconnect this)
  | SendMessage p => undefined (KKTLiveChatSDK.sendMessage this p)
  | SendAttachment p => undefined (KKTLiveChatSDK.sendAttachment this p)
  | GetMessages => reference_or_undefined (KKTLiveChatSDK.getMessages this)
  | GetAttachments =>
      reference_or_undefined (KKTLiveChatSDK.getAttachments this)
  end.

Definition step (op : Op) : M Value :=
  match op with
  | NewMessage m => reference (alloc (OMessage m))
  | NewAttachment a => reference (alloc (OAttachment a))
  | NewSessionHandler => reference SessionHandler.new
  | NewKKTLiveChatSDK => reference KKTLiveChatSDK.new
  | OnSessionHandler this c => call_SessionHandler this c
  | OnKKTLiveChatSDK this c => call_KKTLiveChatSDK this c
  | GetInstance => reference StateManager.getInstance
  | OnStateManager this m => call_StateManager this m
  end.

(** A sequence of operations, with the values they returned. *)
Definition run (ops : list Op) : M (list Value) := mapM step ops.

(** The operations of the two facades, as opposed to direct use of
    [StateManager]. *)
Definition is_facade_op (op : Op) : bool :=
  match op with
  | GetInstance | OnStateManager _ _ => false
  | _ => true
  end.

(** *** Well-typed operations

    TypeScript checks the receiver and arguments of every call.  At run time
    this means that the references involved point to objects of the right
    class. *)

Definition is_message (w : World) (p : loc) : bool :=
  match heap w !! p with Some (OMessage _) => true | _ => false end.

Definition is_attachment (w : World) (p : loc) : bool :=
  match heap w !! p with Some (OAttachment _) => true | _ => false end.

Definition is_SessionHandler (w : World) (l : loc) : bool :=
  match heap w !! l with Some OSessionHandler => true | _ => false end.

Definition is_KKTLiveChatSDK (w : World) (l : loc) : bool :=
  match heap w !! l with Some (OKKTLiveChatSDK _) => true | _ => false end.

Definition is_StateManager (w : World) (l : loc) : bool :=
  match heap w !! l with Some (OStateManager _) => true | _ => false end.

Definition facade_args_ok (w : World) (c : FacadeCall) : bool :=
  match c with
  | SendMessage p => is_message w p
  | SendAttachment p => is_attachment w p
  | _ => true
  end.

Definition method_args_ok (w : World) (m : Method) : bool :=
  match m with
  | MPushMessage p => is_message w p
  | MPushAttachment p => is_attachment w p
  | _ => true
  end.

Definition well_typed (w : World) (op : Op) : bool :=
  match op with
  | OnSessionHandler this c => is_SessionHandler w this && facade_args_ok w c
  | OnKKTLiveChatSDK this c => is_KKTLiveChatSDK w this && facade_args_ok w c
  | OnStateManager this m => is_StateManager w this && method_args_ok w m
  | _ => true
  end.

(** ** Observations

    What a client sees of the shared state, through the accessor and the
    getters of the instance it returns. *)

(** The contents of the arrays behind the two getters of an instance. *)
Definition readMessages (this : loc) : M (list loc) :=
  a <- StateManager.getMessages this ;;
  load_array a.

Definition readAttachments (this : loc) : M (list loc) :=
  a <- StateManager.getAttachments this ;;
  load_array a.

Definition observeStatus : M ConnectionStatus :=
  i <- StateManager.getInstance ;;
  StateManager.getConnectionStatus i.

Definition observeMessages : M (list loc) :=
  i <- StateManager.getInstance ;;
  readMessages i.

Definition observeAttachments : M (list loc) :=
  i <- StateManager.getInstance ;;
  readAttachments i.

(** [n] calls of the accessor in a row, with the references they return. *)
Fixpoint getInstances (n : nat) : M (list loc) :=
  match n with
  | O => ret []
  | S n' =>
      i <- StateManager.getInstance ;;
      rest <- getInstances n' ;;
      ret (i :: rest)
  end.

(** One [pushMessage] per element, in order. *)
Fixpoint pushMessages (this : loc) (ps : list loc) : M unit :=
  match ps with
  | [] => ret tt
  | p :: ps' => StateManager.pushMessage this p ;; pushMessages this ps'
  end.

(** ** Well-formed worlds

    The shape of the heap that the operations maintain: the static field
    points to the only [StateManager] object there is; the two array fields
    of that object point to two different arrays; and every
    [KKTLiveChatSDK] object owns a [SessionHandler]. *)

Record wf (w : World) : Prop :=
  { wf_instance : forall i,
      StateManager_instance w = Some i ->
      exists f, heap w !! i = Some (OStateManager f);
    wf_single : forall l f,
      heap w !! l = Some (OStateManager f) ->
      StateManager_instance w = Some l;
    wf_arrays : forall l f,
      heap w !! l = Some (OStateManager f) ->
      exists ms ats,
        heap w !! messages f = Some (OArray ms) /\
        heap w !! attachments f = Some (OArray ats) /\
        messages f <> attachments f;
    wf_owned : forall l h,
      heap w !! l = Some (OKKTLiveChatSDK h) ->
      exists s, h = Some s /\ heap w !! s = Some OSessionHandler }.

(** Objects that no operation writes to once the operation that made them
    has returned. *)
Definition frozen (o : Obj) : bool :=
  match o with
  | OMessage _ | OAttachment _ | OSessionHandler | OKKTLiveChatSDK _ => true
  | OArray _ | OStateManager _ => false
  end.

(** The status of the [StateManager] objects in the heap is not
    ["connected"]. *)
Definition never_connected (w : World) : Prop :=
  forall l f, heap w !! l = Some (OStateManager f) ->
              connectionStatus f <> Connected.

(** The fields of the instance as it is right after construction. *)
Definition fresh_fields (ms ats : loc) : StateManagerFields :=
  {| connectionStatus := Disconnected; messages := ms; attachments := ats |}.

(** The [StateManager] method behind each facade method. *)
Definition method_of (c : FacadeCall) : Method :=
  match c with
  | Connect => MSetConnectionStatus Connecting
  | Disconnect => MSetConnectionStatus Disconnected
  | SendMessage p => MPushMessage p
  | SendAttachment p => MPushAttachment p
  | GetMessages => MGetMessages
  | GetAttachments => MGetAttachments
  end.

(** ** The shared state, read off the heap

    The fields of the object behind the static field, and the contents of
    its two arrays.  These are what the getters return when they are called
    on the instance (see [observe_status], [observe_messages] and
    [observe_attachments] below). *)

Definition instance_fields (w : World) : option StateManagerFields :=
  match StateManager_instance w with
  | Some i =>
      match heap w !! i with
      | Some (OStateManager f) => Some f
      | _ => None
      end
  | None => None
  end.

Definition array_at (w : World) (a : loc) : option (list loc) :=
  match heap w !! a with
  | Some (OArray elems) => Some elems
  | _ => None
  end.

Definition shared_status (w : World) : option ConnectionStatus :=
  match instance_fields w with
  | Some f => Some (connectionStatus f)
  | None => None
  end.

Definition shared_messages (w : World) : option (list loc) :=
  match instance_fields w with
  | Some f => array_at w (messages f)
  | None => None
  end.

Definition shared_attachments (w : World) : option (list loc) :=
  match instance_fields w with
  | Some f => array_at w (attachments f)
  | None => None
  end.

(** ** State changes

    The ways in which one operation changes the heap and the static field.
    [facade] says that the change is made on behalf of a facade method; a
    facade only ever writes the two statuses of lines 75 and 78. *)

Inductive change (facade : bool) (w w' : World) : Prop :=
| change_none :
    heap w' = heap w ->
    StateManager_instance w' = StateManager_instance w ->
    change facade w w'
| change_alloc (o : Obj) :
    o = OSessionHandler \/ (exists m, o = OMessage m) \/
      (exists a, o = OAttachment a) ->
    heap w' = heap w ++ [o] ->
    StateManager_instance w' = StateManager_instance w ->
    change facade w w'
| change_new_sdk :
    heap w' = heap w ++ [OKKTLiveChatSDK (Some (S (length (heap w))));
                         OSessionHandler] ->
    StateManager_instance w' = StateManager_instance w ->
    change facade w w'
| change_first :
    StateManager_instance w = None ->
    heap w' = heap w ++ [OArray []; OArray [];
                         OStateManager (fresh_fields (length (heap w))
                                                     (S (length (heap w))))] ->
    StateManager_instance w' = Some (S (S (length (heap w)))) ->
    change facade w w'
| change_status (i : loc) (f : StateManagerFields) (s : ConnectionStatus) :
    heap w !! i = Some (OStateManager f) ->
    (facade = true -> s <> Connected) ->
    heap w' = <[i := OStateManager {| connectionStatus := s;
                                      messages := messages f;
                                      attachments := attachments f |}]>
                (heap w) ->
    StateManager_instance w' = StateManager_instance w ->
    change facade w w'
| change_pushMessage (i : loc) (f : StateManagerFields) (old : list loc)
    (p : loc) :
    heap w !! i = Some (OStateManager f) ->
    heap w !! messages f = Some (OArray old) ->
    heap w' = <[i := OStateManager {| connectionStatus := connectionStatus f;
                                      messages := length (heap w);
                                      attachments := attachments f |}]>
                (heap w ++ [OArray (old ++ [p])]) ->
    StateManager_instance w' = StateManager_instance w ->
    change facade w w'
| change_pushAttachment (i : loc) (f : StateManagerFields) (old : list loc)
    (p : loc) :
    heap w !! i = Some (OStateManager f) ->
    heap w !! attachments f = Some (OArray old) ->
    heap w' = <[attachments f := OArray (old ++ [p])]> (heap w) ->
    StateManager_instance w' = StateManager_instance w ->
    change facade w w'.

(** Finitely many changes in a row. *)
Inductive changes (facade : bool) : World -> World -> Prop :=
| changes_nil w : changes facade w w
| changes_cons w1 w2 w3 :
    change facade w1 w2 -> changes facade w2 w3 -> changes facade w1 w3.

(** ** A sample state

    A client that has made two [SessionHandler]s, one [KKTLiveChatSDK], two
    messages and one attachment, and has called the accessor once.  The
    theorems below are instantiated at this state. *)

Definition sample_attachment : Attachment.t :=
  Attachment.make None "https://example.org/a.png" "image/png" 2048 None.

Definition sample_ops : list Op :=
  [NewSessionHandler; NewSessionHandler; NewKKTLiveChatSDK;
   NewMessage (hello 1); NewMessage (help 2);
   NewAttachment sample_attachment; GetInstance].

Definition sample_values : list Value :=
  [VRef 0; VRef 1; VRef 2; VRef 4; VRef 5; VRef 6; VRef 9].

Definition sample_world : World :=
  Eval vm_compute in
    match run sample_ops init_world with
    | Some (_, w) => w
    | None => init_world
    end.

(** A client that uses the facades only. *)
Definition sample_facade_ops : list Op :=
  [NewKKTLiveChatSDK; NewMessage (hello 1);
   OnKKTLiveChatSDK 0 Connect; OnKKTLiveChatSDK 0 (SendMessage 2);
   OnSessionHandler 1 Disconnect; OnKKTLiveChatSDK 0 Connect].

Definition sample_facade_values : list Value :=
  [VRef 0; VRef 2; VUndefined; VUndefined; VUndefined; VUndefined].

Definition sample_facade_world : World :=
  Eval vm_compute in
    match run sample_facade_ops init_world with
    | Some (_, w) => w
    | None => init_world
    end.

(** ** An abstract account of the shared state

    What the three pieces of shared state are after a sequence of
    operations, told without a heap: the status that was set last, and the
    references that were pushed, in the order of the pushes.  An operation
    of a facade counts as the [StateManager] method it stands for. *)

Record Abstract : Type :=
  { a_status : ConnectionStatus;
    a_messages : list loc;
    a_attachments : list loc }.

Definition abstract_init : Abstract :=
  {| a_status := Disconnected; a_messages := []; a_attachments := [] |}.

Definition apply_method (m : Method) (a : Abstract) : Abstract :=
  match m with
  | MSetConnectionStatus s =>
      {| a_status := s;
         a_messages := a_messages a;
         a_attachments := a_attachments a |}
  | MPushMessage p =>
      {| a_status := a_status a;
         a_messages := a_messages a ++ [p];
         a_attachments := a_attachments a |}
  | MPushAttachment p =>
      {| a_status := a_status a;
         a_messages := a_messages a;
         a_attachments := a_attachments a ++ [p] |}
  | MGetConnectionStatus | MGetMessages | MGetAttachments => a
  end.

Definition op_method (op : Op) : option Method :=
  match op with
  | OnSessionHandler _ c | OnKKTLiveChatSDK _ c => Some (method_of c)
  | OnStateManager _ m => Some m
  | _ => None
  end.

Definition abstract_step (a : Abstract) (op : Op) : Abstract :=
  match op_method op with
  | Some m => apply_method m a
  | None => a
  end.


(** The abstract state of a world.  Before the instance exists it is the
    state the instance will start in. *)
Definition abstraction (w : World) : Abstract :=
  {| a_status := default Disconnected (shared_status w);
     a_messages := default [] (shared_messages w);
     a_attachments := default [] (shared_attachments w) |}.

(** An operation that only allocates objects nobody writes to, and prints
    at most the lines of constructors. *)
Definition quiet (w w' : World) : Prop :=
  StateManager_instance w' = StateManager_instance w /\
  calls w' = calls w /\
  exists objs logs,
    heap w' = heap w ++ objs /\
    console w' = console w ++ logs /\
    Forall (fun o => frozen o = true) objs /\
    Forall (fun line => exists s, line = [LStr s]) logs.



(** The sample state, some operations later. *)
Definition sample_later_ops : list Op :=
  [OnSessionHandler 0 (SendMessage 4);
   OnKKTLiveChatSDK 2 (SendAttachment 6);
   OnSessionHandler 1 Connect].

Definition sample_later_values : list Value :=
  [VUndefined; VUndefined; VUndefined].

Definition sample_later_world : World :=
  Eval vm_compute in
    match run sample_later_ops sample_world with
    | Some (_, w) => w
    | None => sample_world
    end.

(** A client that has made two [KKTLiveChatSDK]s, and one that has made
    a [SessionHandler] and nothing else. *)
Definition two_sdk_world : World :=
  Eval vm_compute in
    match run [NewKKTLiveChatSDK; NewKKTLiveChatSDK] init_world with
    | Some (_, w) => w
    | None => init_world
    end.

Definition handler_world : World :=
  Eval vm_compute in
    match run [NewSessionHandler] init_world with
    | Some (_, w) => w
    | None => init_world
    end.

(** A world that does not arise from the operations: a [KKTLiveChatSDK]
    whose field is undefined. *)
Definition orphan_world : World :=
  {| heap := [OKKTLiveChatSDK None; OMessage (hello 1)];
     StateManager_instance := None;
     console := [];
     calls := [] |}.

(** * Proofs *)

(** ** The heap *)

Lemma lookup_alloc (h : list Obj) (o : Obj) :
  (h ++ [o]) !! length h = Some o.
Proof. by rewrite lookup_app_r, Nat.sub_diag. Qed.

Lemma lookup_alloc_old (h : list Obj) (o x : Obj) (l : loc) :
  h !! l = Some x -> (h ++ [o]) !! l = Some x.
Proof. intros H. by apply lookup_app_l_Some. Qed.

Lemma lookup_store_eq (h : list Obj) (o x : Obj) (l : loc) :
  h !! l = Some x -> <[l := o]> h !! l = Some o.
Proof. intros H. apply list_lookup_insert_eq. by eapply lookup_lt_Some. Qed.

Lemma lookup_store_ne (h : list Obj) (o : Obj) (l k : loc) :
  l <> k -> <[l := o]> h !! k = h !! k.
Proof. intros H. by apply list_lookup_insert_ne. Qed.

(** ** What each [StateManager] operation does to the world *)

Section StateManagerMethods.
Variable w : World.
Variable this : loc.
Variable f : StateManagerFields.
Hypothesis Hthis : heap w !! this = Some (OStateManager f).

Lemma setConnectionStatus_run (status : ConnectionStatus) :
  StateManager.setConnectionStatus this status w =
  Some (tt,
        {| heap := <[this := OStateManager
                       {| connectionStatus := status;
                          messages := messages f;
                          attachments := attachments f |}]> (heap w);
           StateManager_instance := StateManager_instance w;
           console := console w;
           calls := calls w ++ [EvCall this (MSetConnectionStatus status)] |}).
Proof.
  unfold StateManager.setConnectionStatus, load_fields, load, bind, record.
  cbn. by rewrite Hthis.
Qed.

Lemma getConnectionStatus_run :
  StateManager.getConnectionStatus this w =
  Some (connectionStatus f,
        {| heap := heap w;
           StateManager_instance := StateManager_instance w;
           console := console w;
           calls := calls w ++ [EvCall this MGetConnectionStatus] |}).
Proof.
  unfold StateManager.getConnectionStatus, load_fields, load, bind, record.
  cbn. by rewrite Hthis.
Qed.

Lemma getMessages_run :
  StateManager.getMessages this w =
  Some (messages f,
        {| heap := heap w;
           StateManager_instance := StateManager_instance w;
           console := console w;
           calls := calls w ++ [EvCall this MGetMessages] |}).
Proof.
  unfold StateManager.getMessages, load_fields, load, bind, record.
  cbn. by rewrite Hthis.
Qed.

Lemma getAttachments_run :
  StateManager.getAttachments this w =
  Some (attachments f,
        {| heap := heap w;
           StateManager_instance := StateManager_instance w;
           console := console w;
           calls := calls w ++ [EvCall this MGetAttachments] |}).
Proof.
  unfold StateManager.getAttachments, load_fields, load, bind, record.
  cbn. by rewrite Hthis.
Qed.

Lemma pushMessage_run (message : loc) (o : Obj) (old : list loc) :
  heap w !! message = Some o ->
  heap w !! messages f = Some (OArray old) ->
  StateManager.pushMessage this message w =
  Some (tt,
        {| heap := <[this := OStateManager
                       {| connectionStatus := connectionStatus f;
                          messages := length (heap w);
                          attachments := attachments f |}]>
                     (heap w ++ [OArray (old ++ [message])]);
           StateManager_instance := StateManager_instance w;
           console := console w ++ [[LStr "Pushing message:"; LObj o]];
           calls := calls w ++ [EvCall this (MPushMessage message)] |}).
Proof.
  intros Hm Ha.
  unfold StateManager.pushMessage, load_fields, load_array, load, bind,
    record, console_log.
  cbn. rewrite Hm. cbn. rewrite Hthis. cbn. by rewrite Ha.
Qed.

Lemma pushAttachment_run (attachment : loc) (old : list loc) :
  heap w !! attachments f = Some (OArray old) ->
  StateManager.pushAttachment this attachment w =
  Some (tt,
        {| heap := <[attachments f := OArray (old ++ [attachment])]> (heap w);
           StateManager_instance := StateManager_instance w;
           console := console w;
           calls := calls w ++ [EvCall this (MPushAttachment attachment)] |}).
Proof.
  intros Ha.
  unfold StateManager.pushAttachment, load_fields, load_array, load, bind,
    record.
  cbn. rewrite Hthis. cbn. by rewrite Ha.
Qed.
End StateManagerMethods.

(** The accessor when the instance exists: the stored reference comes
    back and only the call history grows. *)
Lemma getInstance_stored (w : World) (i : loc) :
  StateManager_instance w = Some i ->
  StateManager.getInstance w =
  Some (i, {| heap := heap w;
              StateManager_instance := Some i;
              console := console w;
              calls := calls w ++ [EvGetInstance] |}).
Proof.
  intros H. unfold StateManager.getInstance, bind, record, get_instance_field.
  cbn. by rewrite H.
Qed.

(** The accessor when the static field is undefined: the instance and its
    two arrays are allocated and the field is set. *)
Lemma getInstance_first (w : World) :
  StateManager_instance w = None ->
  StateManager.getInstance w =
  Some (S (S (length (heap w))),
        {| heap := heap w ++
                   [OArray []; OArray [];
                    OStateManager (fresh_fields (length (heap w))
                                                (S (length (heap w))))];
           StateManager_instance := Some (S (S (length (heap w))));
           console := console w;
           calls := calls w ++ [EvGetInstance] |}).
Proof.
  intros H.
  unfold StateManager.getInstance, StateManager.new, bind, record,
    get_instance_field, alloc, set_instance_field, ret.
  cbn. rewrite H. cbn.
  rewrite !length_app. cbn. rewrite !Nat.add_1_r.
  by rewrite <- !app_assoc.
Qed.

(** ** Every operation is a short sequence of state changes *)

Lemma changes_one facade w w' : change facade w w' -> changes facade w w'.
Proof. intros H. eapply changes_cons; [exact H | constructor]. Qed.

Lemma changes_trans facade w1 w2 w3 :
  changes facade w1 w2 -> changes facade w2 w3 -> changes facade w1 w3.
Proof.
  induction 1 as [|a b c Hab Hbc IH]; [done|].
  intros H. eapply changes_cons; [exact Hab | by apply IH].
Qed.

Lemma getInstance_change facade w i w' :
  StateManager.getInstance w = Some (i, w') ->
  change facade w w' /\ StateManager_instance w' = Some i.
Proof.
  destruct (StateManager_instance w) as [j|] eqn:E.
  - rewrite (getInstance_stored _ _ E). intros [= <- <-]. split; [|done].
    by apply change_none.
  - rewrite (getInstance_first _ E). intros [= <- <-]. split; [|done].
    by apply change_first.
Qed.

(** A method called on a receiver that is not a [StateManager] gets
    stuck. *)
Ltac stuck Hthis :=
  unfold call_StateManager, undefined, reference,
    StateManager.setConnectionStatus, StateManager.getConnectionStatus,
    StateManager.pushMessage, StateManager.getMessages,
    StateManager.pushAttachment, StateManager.getAttachments,
    load_fields, load_array, load, bind, record, console_log;
  cbn; rewrite ?Hthis; cbn;
  repeat match goal with
         | |- context [heap ?w !! ?l] =>
             destruct (heap w !! l) as [[]|]; cbn; rewrite ?Hthis; cbn
         end;
  done.

Lemma call_StateManager_change facade w this m v w' :
  (facade = true -> m <> MSetConnectionStatus Connected) ->
  call_StateManager this m w = Some (v, w') ->
  change facade w w'.
Proof.
  intros Hm.
  destruct (heap w !! this) as [[| | |f| |]|] eqn:Hthis;
    try (destruct m; stuck Hthis).
  destruct m as [s| |p| |p|]; cbn; unfold undefined, reference, bind.
  - rewrite (setConnectionStatus_run _ _ _ Hthis). intros [= <- <-].
    eapply change_status; eauto. intros Hf ->. by apply Hm.
  - rewrite (getConnectionStatus_run _ _ _ Hthis). intros [= <- <-].
    by apply change_none.
  - destruct (heap w !! p) as [o|] eqn:Hp; [|stuck Hthis].
    destruct (heap w !! messages f) as [[| |old| | |]|] eqn:Ha;
      try (unfold StateManager.pushMessage, load_fields, load_array, load,
             bind, record, console_log;
           cbn; rewrite Hp; cbn; rewrite Hthis; cbn; by rewrite Ha).
    rewrite (pushMessage_run _ _ _ Hthis _ _ _ Hp Ha). intros [= <- <-].
    eapply change_pushMessage; eauto.
  - rewrite (getMessages_run _ _ _ Hthis). intros [= <- <-].
    by apply change_none.
  - destruct (heap w !! attachments f) as [[| |old| | |]|] eqn:Ha;
      try (unfold StateManager.pushAttachment, load_fields, load_array, load,
             bind, record;
           cbn; rewrite Hthis; cbn; by rewrite Ha).
    rewrite (pushAttachment_run _ _ _ Hthis _ _ Ha). intros [= <- <-].
    eapply change_pushAttachment; eauto.
  - rewrite (getAttachments_run _ _ _ Hthis). intros [= <- <-].
    by apply change_none.
Qed.

(** A [SessionHandler] method is the accessor followed by one method of
    the instance. *)
Lemma call_SessionHandler_unfold this c w :
  call_SessionHandler this c w =
  (SessionHandler_receiver this ;;
   i <- StateManager.getInstance ;;
   call_StateManager i (method_of c)) w.
Proof.
  destruct c; cbn;
    unfold undefined, reference, SessionHandler.connect,
      SessionHandler.disconnect, SessionHandler.sendMessage,
      SessionHandler.sendAttachment, SessionHandler.getMessages,
      SessionHandler.getAttachments, bind;
    destruct (SessionHandler_receiver this w) as [[[] w0]|]; try done;
    destruct (StateManager.getInstance w0) as [[i w1]|]; done.
Qed.

(** A [KKTLiveChatSDK] method is the same method of the owned
    [SessionHandler], when there is one. *)
Lemma call_KKTLiveChatSDK_unfold this c w :
  call_KKTLiveChatSDK this c w =
  (h <- load_sessionHandler this ;;
   match h with
   | Some t => call_SessionHandler t c
   | None => ret VUndefined
   end) w.
Proof.
  destruct c; cbn;
    unfold undefined, reference, reference_or_undefined,
      KKTLiveChatSDK.connect, KKTLiveChatSDK.disconnect,
      KKTLiveChatSDK.sendMessage, KKTLiveChatSDK.sendAttachment,
      KKTLiveChatSDK.getMessages, KKTLiveChatSDK.getAttachments,
      optional_chain, bind;
    destruct (load_sessionHandler this w) as [[[t|] w0]|]; try done.
  - by destruct (SessionHandler.connect t w0) as [[[] ?]|].
  - by destruct (SessionHandler.disconnect t w0) as [[[] ?]|].
  - by destruct (SessionHandler.sendMessage t message w0) as [[[] ?]|].
  - by destruct (SessionHandler.sendAttachment t attachment w0) as [[[] ?]|].
  - by destruct (SessionHandler.getMessages t w0) as [[? ?]|].
  - by destruct (SessionHandler.getAttachments t w0) as [[? ?]|].
Qed.

Lemma SessionHandler_receiver_inv this w u w' :
  SessionHandler_receiver this w = Some (u, w') ->
  heap w !! this = Some OSessionHandler /\ w' = w.
Proof.
  unfold SessionHandler_receiver, load, bind.
  destruct (heap w !! this) as [[]|]; cbn; try done. by intros [= <- <-].
Qed.

Lemma load_sessionHandler_inv this w h w' :
  load_sessionHandler this w = Some (h, w') ->
  heap w !! this = Some (OKKTLiveChatSDK h) /\ w' = w.
Proof.
  unfold load_sessionHandler, load, bind.
  destruct (heap w !! this) as [[]|]; cbn; try done. by intros [= <- <-].
Qed.

Lemma method_of_facade c : method_of c <> MSetConnectionStatus Connected.
Proof. by destruct c. Qed.

Lemma call_SessionHandler_changes facade this c w v w' :
  call_SessionHandler this c w = Some (v, w') -> changes facade w w'.
Proof.
  rewrite call_SessionHandler_unfold. unfold bind at 1.
  destruct (SessionHandler_receiver this w) as [[u w0]|] eqn:Hr; [|done].
  apply SessionHandler_receiver_inv in Hr as [_ ->].
  unfold bind.
  destruct (StateManager.getInstance w) as [[i w1]|] eqn:Hi; [|done].
  intros Hc. apply (getInstance_change facade) in Hi as [Hi _].
  eapply changes_cons; [exact Hi|]. apply changes_one.
  eapply call_StateManager_change; [|exact Hc].
  intros _. apply method_of_facade.
Qed.

Lemma call_KKTLiveChatSDK_changes facade this c w v w' :
  call_KKTLiveChatSDK this c w = Some (v, w') -> changes facade w w'.
Proof.
  rewrite call_KKTLiveChatSDK_unfold. unfold bind.
  destruct (load_sessionHandler this w) as [[h w0]|] eqn:Hl; [|done].
  apply load_sessionHandler_inv in Hl as [_ ->].
  destruct h as [t|].
  - apply call_SessionHandler_changes.
  - intros [= <- <-]. constructor.
Qed.

Lemma SessionHandler_new_run w :
  SessionHandler.new w =
  Some (length (heap w),
        {| heap := heap w ++ [OSessionHandler];
           StateManager_instance := StateManager_instance w;
           console := console w ++ [[LStr "SessionHandler constructor"]];
           calls := calls w |}).
Proof. reflexivity. Qed.

Lemma KKTLiveChatSDK_new_run w :
  KKTLiveChatSDK.new w =
  Some (length (heap w),
        {| heap := heap w ++ [OKKTLiveChatSDK (Some (S (length (heap w))));
                              OSessionHandler];
           StateManager_instance := StateManager_instance w;
           console := console w ++ [[LStr "KKTLiveChatSDK constructor"];
                                    [LStr "SessionHandler constructor"]];
           calls := calls w |}).
Proof.
  unfold KKTLiveChatSDK.new, SessionHandler.new, bind, alloc, console_log,
    store, ret. cbn.
  rewrite !length_app. cbn. rewrite Nat.add_1_r.
  rewrite <- !app_assoc. cbn.
  by rewrite (insert_app_r_alt _ _ (length (heap w))), Nat.sub_diag by lia.
Qed.

(** Every operation that returns changes the state by a few of the steps
    of [change], and a facade operation by steps that a facade may take. *)
Lemma step_changes op w v w' :
  step op w = Some (v, w') -> changes (is_facade_op op) w w'.
Proof.
  destruct op as [m|a| | |this c|this c| |this m]; unfold step, is_facade_op.
  - intros [= <- <-]. apply changes_one.
    apply (change_alloc _ _ _ (OMessage m)); eauto.
  - intros [= <- <-]. apply changes_one.
    apply (change_alloc _ _ _ (OAttachment a)); eauto.
  - intros [= <- <-]. apply changes_one.
    apply (change_alloc _ _ _ OSessionHandler); eauto.
  - unfold reference, bind. rewrite KKTLiveChatSDK_new_run.
    intros [= <- <-]. apply changes_one. by apply change_new_sdk.
  - apply call_SessionHandler_changes.
  - apply call_KKTLiveChatSDK_changes.
  - unfold reference, bind.
    destruct (StateManager.getInstance w) as [[i w1]|] eqn:Hi; [|done].
    intros [= <- <-]. apply changes_one.
    by apply (getInstance_change false) in Hi as [Hi _].
  - intros H. apply changes_one.
    eapply call_StateManager_change; [done | exact H].
Qed.

(** ** Lookups in an updated heap *)

Lemma lookup_one (h : list Obj) (a : Obj) (l : loc) (x : Obj) :
  (h ++ [a]) !! l = Some x <->
  h !! l = Some x \/ (l = length h /\ x = a).
Proof. rewrite lookup_snoc_Some. naive_solver eauto using lookup_lt_Some. Qed.

Lemma lookup_two (h : list Obj) (a b : Obj) (l : loc) (x : Obj) :
  (h ++ [a; b]) !! l = Some x <->
  h !! l = Some x \/ (l = length h /\ x = a) \/ (l = S (length h) /\ x = b).
Proof.
  change [a; b] with ([a] ++ [b]). rewrite app_assoc, lookup_one, lookup_one.
  rewrite length_app. cbn. rewrite Nat.add_1_r. naive_solver.
Qed.

Lemma lookup_three (h : list Obj) (a b c : Obj) (l : loc) (x : Obj) :
  (h ++ [a; b; c]) !! l = Some x <->
  h !! l = Some x \/ (l = length h /\ x = a) \/
  (l = S (length h) /\ x = b) \/ (l = S (S (length h)) /\ x = c).
Proof.
  change [a; b; c] with ([a; b] ++ [c]).
  rewrite app_assoc, lookup_one, lookup_two.
  rewrite length_app. cbn. rewrite Nat.add_comm. cbn. naive_solver.
Qed.

Lemma lookup_store (h : list Obj) (i : loc) (o : Obj) (l : loc) (x : Obj) :
  <[i := o]> h !! l = Some x <->
  (l = i /\ x = o /\ i < length h) \/ (l <> i /\ h !! l = Some x).
Proof. rewrite list_lookup_insert_Some. naive_solver. Qed.

(** Every reference that is looked up with success is below the next free
    one. *)
Ltac bounds :=
  repeat match goal with
         | H : ?h !! ?l = Some _ |- _ =>
             lazymatch goal with
             | _ : l < length h |- _ => fail
             | _ => pose proof (lookup_lt_Some _ _ _ H)
             end
         end.

Ltac heap_hyps :=
  repeat match goal with
         | H : _ !! _ = Some _ |- _ =>
             first [ rewrite lookup_store in H
                   | rewrite lookup_three in H
                   | rewrite lookup_two in H
                   | rewrite lookup_one in H ]
         end.

(** ** Well-formedness is kept *)

Lemma wf_init : wf init_world.
Proof. split; cbn; intros; by rewrite ?lookup_nil in *. Qed.

Ltac split_hyps :=
  repeat match goal with
         | H : _ /\ _ |- _ => destruct H
         | H : _ \/ _ |- _ => destruct H
         | H : exists _, _ |- _ => destruct H
         end; simplify_eq.

Ltac heap_cases := repeat (progress (heap_hyps; split_hyps)).

(** What well-formedness says about the objects at hand. *)
Ltac use_wf Hi Hs Ha Ho :=
  repeat match goal with
         | H : heap ?w !! ?l = Some (OStateManager ?f) |- _ =>
             lazymatch goal with
             | _ : messages f <> attachments f |- _ => fail
             | _ => let ms := fresh "ms" in let ats := fresh "ats" in
                    destruct (Ha _ _ H) as (ms & ats & ? & ? & ?)
             end
         | H : heap ?w !! ?l = Some (OStateManager ?f) |- _ =>
             lazymatch goal with
             | _ : StateManager_instance w = Some l |- _ => fail
             | _ => pose proof (Hs _ _ H)
             end
         | H : heap ?w !! ?l = Some (OKKTLiveChatSDK ?h) |- _ =>
             lazymatch goal with
             | _ : heap w !! _ = Some OSessionHandler |- _ => fail
             | _ => let s := fresh "s" in
                    destruct (Ho _ _ H) as (s & ? & ?)
             end
         | H : StateManager_instance ?w = Some ?l |- _ =>
             lazymatch goal with
             | _ : heap w !! l = Some (OStateManager _) |- _ => fail
             | _ => let g := fresh "g" in destruct (Hi _ H) as [g ?]
             end
         end; simplify_eq.

Ltac heap_solve :=
  repeat (setoid_rewrite lookup_store || setoid_rewrite lookup_three ||
          setoid_rewrite lookup_two || setoid_rewrite lookup_one);
  rewrite ?length_app; cbn [length messages attachments fresh_fields];
  bounds;
  try solve [ repeat eexists; intuition (eauto; try lia; try congruence) ].

Lemma change_wf facade w w' : wf w -> change facade w w' -> wf w'.
Proof.
  intros [Hi Hs Ha Ho] Hc.
  destruct Hc as [Hh Hinst | o Hk Hh Hinst | Hh Hinst | Hnone Hh Hinst
                 | i f s Hf Hfac Hh Hinst | i f old p Hf Hold Hh Hinst
                 | i f old p Hf Hold Hh Hinst];
    split; rewrite ?Hh, ?Hinst.
  all: try (intros l g Hl || intros l Hl); heap_cases.
  all: use_wf Hi Hs Ha Ho.
  all: try solve [eauto 8].
  all: clear Hi Hs Ha Ho; heap_solve.
Qed.

Lemma changes_wf facade w w' : wf w -> changes facade w w' -> wf w'.
Proof. intros Hw Hc. induction Hc; eauto using change_wf. Qed.

(** ** What a state change keeps *)

Lemma change_frozen facade w w' l o :
  change facade w w' -> heap w !! l = Some o -> frozen o = true ->
  heap w' !! l = Some o.
Proof.
  intros Hc Hl Hfr.
  destruct Hc as [Hh Hinst | o' Hk Hh Hinst | Hh Hinst | Hnone Hh Hinst
                 | i f s Hf Hfac Hh Hinst | i f old p Hf Hold Hh Hinst
                 | i f old p Hf Hold Hh Hinst];
    rewrite Hh; try done.
  all: try (by apply lookup_app_l_Some).
  all: assert (l <> i) by (destruct o; try done; congruence).
  all: try (assert (l <> attachments f) by (destruct o; try done; congruence)).
  all: heap_solve.
Qed.

Lemma change_instance facade w w' i :
  change facade w w' -> StateManager_instance w = Some i ->
  StateManager_instance w' = Some i.
Proof. intros [] Hi; congruence. Qed.

Lemma change_never_connected w w' :
  change true w w' -> never_connected w -> never_connected w'.
Proof.
  intros Hc Hn l g.
  destruct Hc as [Hh Hinst | o' Hk Hh Hinst | Hh Hinst | Hnone Hh Hinst
                 | i f s Hf Hfac Hh Hinst | i f old p Hf Hold Hh Hinst
                 | i f old p Hf Hold Hh Hinst];
    rewrite Hh; intros Hl; heap_cases; eauto.
  cbn. eapply Hn; eauto.
Qed.

Lemma change_weaken facade w w' : change facade w w' -> change false w w'.
Proof.
  intros []; eauto using change_none, change_alloc, change_new_sdk,
    change_first, change_status, change_pushMessage, change_pushAttachment.
Qed.

Lemma shared_messages_Some w elems :
  shared_messages w = Some elems <->
  exists i f, StateManager_instance w = Some i /\
              heap w !! i = Some (OStateManager f) /\
              heap w !! messages f = Some (OArray elems).
Proof.
  unfold shared_messages, instance_fields, array_at. split.
  - destruct (StateManager_instance w) as [i|]; [|done].
    destruct (heap w !! i) as [[| | |f| |]|] eqn:Hi; try done.
    destruct (heap w !! messages f) as [[]|] eqn:Ha; try done.
    intros [= ->]. eauto.
  - intros (i & f & -> & -> & ->). done.
Qed.

Lemma change_messages_grow facade w w' old :
  wf w -> change facade w w' -> shared_messages w = Some old ->
  exists new, shared_messages w' = Some new /\ old `prefix_of` new.
Proof.
  intros Hw Hc (j & g & Hj & Hg & Hold)%shared_messages_Some.
  setoid_rewrite shared_messages_Some.
  assert (forall i f, heap w !! i = Some (OStateManager f) -> i = j /\ f = g)
    as Hsame.
  { intros i f Hf. pose proof (wf_single _ Hw _ _ Hf). split; congruence. }
  destruct (wf_arrays _ Hw _ _ Hg) as (ms & ats & _ & Hats & Hne).
  destruct Hc as [Hh Hinst | o' Hk Hh Hinst | Hh Hinst | Hnone Hh Hinst
                 | i f s Hf Hfac Hh Hinst | i f old0 p Hf Hold0 Hh Hinst
                 | i f old0 p Hf Hold0 Hh Hinst];
    rewrite ?Hh, ?Hinst;
    try (destruct (Hsame _ _ Hf) as [-> ->]); clear Hw Hsame.
  - exists old. split; [eauto 6 | done].
  - exists old. split; [|done]. exists j, g. heap_solve.
  - exists old. split; [|done]. exists j, g. heap_solve.
  - congruence.
  - exists old. split; [|done].
    exists j, {| connectionStatus := s; messages := messages g;
                 attachments := attachments g |}.
    heap_solve.
  - assert (old0 = old) as -> by congruence.
    exists (old ++ [p]). split; [|by apply prefix_app_r].
    exists j, {| connectionStatus := connectionStatus g;
                 messages := length (heap w);
                 attachments := attachments g |}.
    heap_solve.
  - exists old. split; [|done]. exists j, g. heap_solve.
Qed.

(** ** Runs *)

Lemma run_cons_inv op ops w vs w' :
  run (op :: ops) w = Some (vs, w') ->
  exists v w1 vs', step op w = Some (v, w1) /\
                   run ops w1 = Some (vs', w') /\ vs = v :: vs'.
Proof.
  unfold run. cbn. unfold bind.
  destruct (step op w) as [[v w1]|]; [|done].
  destruct (mapM step ops w1) as [[vs' w2]|] eqn:Hr; [|done].
  intros [= <- <-]. by eexists _, _, _.
Qed.

Lemma run_changes ops w vs w' :
  run ops w = Some (vs, w') -> changes false w w'.
Proof.
  revert w vs. induction ops as [|op ops IH]; intros w vs.
  - intros [= <- <-]. constructor.
  - intros (v & w1 & vs' & Hs & Hr & _)%run_cons_inv.
    eapply changes_trans; [|by eapply IH].
    apply step_changes in Hs. clear -Hs.
    induction Hs; econstructor; eauto using change_weaken.
Qed.

Lemma run_facade_changes ops w vs w' :
  forallb is_facade_op ops = true ->
  run ops w = Some (vs, w') -> changes true w w'.
Proof.
  revert w vs. induction ops as [|op ops IH]; intros w vs.
  - intros _ [= <- <-]. constructor.
  - cbn [forallb]. intros [Hop Hops]%andb_prop.
    intros (v & w1 & vs' & Hs & Hr & _)%run_cons_inv.
    eapply changes_trans; [|by eapply IH].
    apply step_changes in Hs. by rewrite Hop in Hs.
Qed.

Lemma run_wf ops w vs w' : wf w -> run ops w = Some (vs, w') -> wf w'.
Proof. intros Hw Hr. eapply changes_wf; eauto using run_changes. Qed.

Lemma reachable_wf ops vs w : run ops init_world = Some (vs, w) -> wf w.
Proof. apply run_wf, wf_init. Qed.

Lemma changes_frozen facade w w' l o :
  changes facade w w' -> heap w !! l = Some o -> frozen o = true ->
  heap w' !! l = Some o.
Proof. induction 1; eauto using change_frozen. Qed.

Lemma changes_instance facade w w' i :
  changes facade w w' -> StateManager_instance w = Some i ->
  StateManager_instance w' = Some i.
Proof. induction 1; eauto using change_instance. Qed.

Lemma changes_never_connected w w' :
  changes true w w' -> never_connected w -> never_connected w'.
Proof. induction 1; eauto using change_never_connected. Qed.

Lemma changes_messages_grow facade w w' old :
  wf w -> changes facade w w' -> shared_messages w = Some old ->
  exists new, shared_messages w' = Some new /\ old `prefix_of` new.
Proof.
  intros Hw Hc. revert old. induction Hc as [w|w1 w2 w3 H12 H23 IH].
  - intros old H. exists old. by split.
  - intros old H.
    destruct (change_messages_grow _ _ _ _ Hw H12 H) as (mid & Hmid & Hp).
    destruct (IH (change_wf _ _ _ Hw H12) _ Hmid) as (new & Hnew & Hp').
    exists new. split; [done|]. by etrans.
Qed.

(** ** Reading the shared state *)

Lemma new_run w :
  StateManager.new w =
  Some (S (S (length (heap w))),
        {| heap := heap w ++
                   [OArray []; OArray [];
                    OStateManager (fresh_fields (length (heap w))
                                                (S (length (heap w))))];
           StateManager_instance := StateManager_instance w;
           console := console w;
           calls := calls w |}).
Proof.
  unfold StateManager.new, bind, alloc. cbn.
  rewrite !length_app. cbn. rewrite !Nat.add_1_r.
  by rewrite <- !app_assoc.
Qed.

Lemma readMessages_run w this f elems :
  heap w !! this = Some (OStateManager f) ->
  heap w !! messages f = Some (OArray elems) ->
  readMessages this w =
  Some (elems,
        {| heap := heap w;
           StateManager_instance := StateManager_instance w;
           console := console w;
           calls := calls w ++ [EvCall this MGetMessages] |}).
Proof.
  intros Hthis Ha. unfold readMessages, bind.
  rewrite (getMessages_run _ _ _ Hthis).
  unfold load_array, load, bind. cbn. by rewrite Ha.
Qed.

Lemma readAttachments_run w this f elems :
  heap w !! this = Some (OStateManager f) ->
  heap w !! attachments f = Some (OArray elems) ->
  readAttachments this w =
  Some (elems,
        {| heap := heap w;
           StateManager_instance := StateManager_instance w;
           console := console w;
           calls := calls w ++ [EvCall this MGetAttachments] |}).
Proof.
  intros Hthis Ha. unfold readAttachments, bind.
  rewrite (getAttachments_run _ _ _ Hthis).
  unfold load_array, load, bind. cbn. by rewrite Ha.
Qed.

(** The observations made through the accessor are the shared state. *)
Lemma observe_status w i :
  StateManager_instance w = Some i ->
  evalM observeStatus w = shared_status w.
Proof.
  intros Hi. unfold observeStatus, evalM, bind, shared_status, instance_fields.
  rewrite (getInstance_stored _ _ Hi), Hi.
  unfold StateManager.getConnectionStatus, load_fields, load, bind, record.
  cbn. by destruct (heap w !! i) as [[]|].
Qed.

Lemma observe_messages w i :
  StateManager_instance w = Some i ->
  evalM observeMessages w = shared_messages w.
Proof.
  intros Hi.
  unfold observeMessages, evalM, bind, shared_messages, instance_fields.
  rewrite (getInstance_stored _ _ Hi), Hi.
  unfold readMessages, StateManager.getMessages, load_fields, load_array, load,
    bind, record, array_at.
  cbn. destruct (heap w !! i) as [[| | |f| |]|]; try done. cbn.
  by destruct (heap w !! messages f) as [[]|].
Qed.

Lemma observe_attachments w i :
  StateManager_instance w = Some i ->
  evalM observeAttachments w = shared_attachments w.
Proof.
  intros Hi.
  unfold observeAttachments, evalM, bind, shared_attachments, instance_fields.
  rewrite (getInstance_stored _ _ Hi), Hi.
  unfold readAttachments, StateManager.getAttachments, load_fields, load_array,
    load, bind, record, array_at.
  cbn. destruct (heap w !! i) as [[| | |f| |]|]; try done. cbn.
  by destruct (heap w !! attachments f) as [[]|].
Qed.

Lemma is_StateManager_true w l :
  is_StateManager w l = true -> exists f, heap w !! l = Some (OStateManager f).
Proof.
  unfold is_StateManager. destruct (heap w !! l) as [[]|]; try done. eauto.
Qed.

Lemma getInstances_stored n w i :
  StateManager_instance w = Some i ->
  exists w', getInstances n w = Some (repeat i n, w') /\
             heap w' = heap w /\ StateManager_instance w' = Some i /\
             console w' = console w.
Proof.
  revert w. induction n as [|n IH]; intros w Hi.
  - by exists w.
  - cbn. unfold bind at 1. rewrite (getInstance_stored _ _ Hi).
    edestruct (IH {| heap := heap w;
              StateManager_instance := Some i;
              console := console w;
              calls := calls w ++ [EvGetInstance] |}) as (w' & Hr & Hh & Hinst & Hc); [done|].
    exists w'. unfold bind. rewrite Hr. done.
Qed.

(** ** Well-typed operations go through *)

Lemma is_SessionHandler_true w l :
  is_SessionHandler w l = true -> heap w !! l = Some OSessionHandler.
Proof.
  unfold is_SessionHandler. by destruct (heap w !! l) as [[]|].
Qed.

Lemma is_KKTLiveChatSDK_true w l :
  is_KKTLiveChatSDK w l = true ->
  exists h, heap w !! l = Some (OKKTLiveChatSDK h).
Proof.
  unfold is_KKTLiveChatSDK. destruct (heap w !! l) as [[]|]; try done. eauto.
Qed.

Lemma is_message_true w p :
  is_message w p = true -> exists m, heap w !! p = Some (OMessage m).
Proof.
  unfold is_message. destruct (heap w !! p) as [[]|]; try done. eauto.
Qed.

Lemma is_attachment_true w p :
  is_attachment w p = true -> exists a, heap w !! p = Some (OAttachment a).
Proof.
  unfold is_attachment. destruct (heap w !! p) as [[]|]; try done. eauto.
Qed.

(** The accessor in a well-formed world: it returns the instance, leaves
    every object that exists as it is, and keeps the world well-formed. *)
Lemma getInstance_ok w :
  wf w ->
  exists i f w1,
    StateManager.getInstance w = Some (i, w1) /\
    wf w1 /\
    StateManager_instance w1 = Some i /\
    heap w1 !! i = Some (OStateManager f) /\
    calls w1 = calls w ++ [EvGetInstance] /\
    console w1 = console w /\
    (forall l o, heap w !! l = Some o -> heap w1 !! l = Some o).
Proof.
  intros Hw.
  destruct (StateManager.getInstance w) as [[i w1]|] eqn:Hg.
  2:{ destruct (StateManager_instance w) eqn:E.
      - by rewrite (getInstance_stored _ _ E) in Hg.
      - by rewrite (getInstance_first _ E) in Hg. }
  destruct (getInstance_change false _ _ _ Hg) as [Hc Hi].
  pose proof (change_wf _ _ _ Hw Hc) as Hw1.
  destruct (wf_instance _ Hw1 _ Hi) as [f Hf].
  exists i, f, w1. split_and!; try done.
  - destruct (StateManager_instance w) eqn:E.
    + rewrite (getInstance_stored _ _ E) in Hg. by simplify_eq.
    + rewrite (getInstance_first _ E) in Hg. by simplify_eq.
  - destruct (StateManager_instance w) eqn:E.
    + rewrite (getInstance_stored _ _ E) in Hg. by simplify_eq.
    + rewrite (getInstance_first _ E) in Hg. by simplify_eq.
  - intros l o Hl. destruct (StateManager_instance w) eqn:E.
    + rewrite (getInstance_stored _ _ E) in Hg. by simplify_eq.
    + rewrite (getInstance_first _ E) in Hg. simplify_eq. cbn.
      by apply lookup_app_l_Some.
Qed.

Lemma call_StateManager_progress w this m :
  wf w -> is_StateManager w this = true -> method_args_ok w m = true ->
  exists v w', call_StateManager this m w = Some (v, w').
Proof.
  intros Hw [f Hf]%is_StateManager_true Hargs.
  destruct (wf_arrays _ Hw _ _ Hf) as (ms & ats & Hms & Hats & _).
  destruct m as [s| |p| |p|]; cbn; unfold undefined, reference, bind.
  - rewrite (setConnectionStatus_run _ _ _ Hf). eauto.
  - rewrite (getConnectionStatus_run _ _ _ Hf). eauto.
  - apply is_message_true in Hargs as [m Hp].
    rewrite (pushMessage_run _ _ _ Hf _ _ _ Hp Hms). eauto.
  - rewrite (getMessages_run _ _ _ Hf). eauto.
  - rewrite (pushAttachment_run _ _ _ Hf _ _ Hats). eauto.
  - rewrite (getAttachments_run _ _ _ Hf). eauto.
Qed.

Lemma method_args_ok_mono w w1 m :
  (forall l o, heap w !! l = Some o -> heap w1 !! l = Some o) ->
  method_args_ok w m = true -> method_args_ok w1 m = true.
Proof.
  intros Hmono. destruct m as [s| |p| |p|]; cbn; try done.
  - intros [m Hp]%is_message_true. unfold is_message.
    by rewrite (Hmono _ _ Hp).
  - intros [a Hp]%is_attachment_true. unfold is_attachment.
    by rewrite (Hmono _ _ Hp).
Qed.

Lemma facade_args_method_args w c :
  facade_args_ok w c = method_args_ok w (method_of c).
Proof. by destruct c. Qed.

Lemma call_SessionHandler_progress w this c :
  wf w -> is_SessionHandler w this = true -> facade_args_ok w c = true ->
  exists v w', call_SessionHandler this c w = Some (v, w').
Proof.
  intros Hw Hthis%is_SessionHandler_true Hargs.
  destruct (getInstance_ok _ Hw) as (i & f & w1 & Hg & Hw1 & Hi & Hf & _ & _ & Hmono).
  rewrite facade_args_method_args in Hargs.
  destruct (call_StateManager_progress w1 i (method_of c)) as (v & w' & Hc);
    [done| |by eapply method_args_ok_mono|].
  { unfold is_StateManager. by rewrite Hf. }
  exists v, w'. rewrite call_SessionHandler_unfold.
  unfold SessionHandler_receiver, load, bind, ret. rewrite Hthis.
  cbv beta iota. by rewrite Hg.
Qed.

Lemma call_KKTLiveChatSDK_progress w this c :
  wf w -> is_KKTLiveChatSDK w this = true -> facade_args_ok w c = true ->
  exists v w', call_KKTLiveChatSDK this c w = Some (v, w').
Proof.
  intros Hw [h Hthis]%is_KKTLiveChatSDK_true Hargs.
  destruct (wf_owned _ Hw _ _ Hthis) as (s & -> & Hs).
  destruct (call_SessionHandler_progress w s c) as (v & w' & Hc);
    [done| |done|].
  { unfold is_SessionHandler. by rewrite Hs. }
  exists v, w'. rewrite call_KKTLiveChatSDK_unfold.
  unfold load_sessionHandler, load, bind, ret. by rewrite Hthis.
Qed.

Lemma step_progress w op :
  wf w -> well_typed w op = true -> exists v w', step op w = Some (v, w').
Proof.
  intros Hw Ht.
  destruct op as [m|a| | |this c|this c| |this m]; unfold step, well_typed in *.
  - by eexists _, _.
  - by eexists _, _.
  - by eexists _, _.
  - unfold reference, bind. rewrite KKTLiveChatSDK_new_run. eauto.
  - apply andb_prop in Ht as [? ?]. by apply call_SessionHandler_progress.
  - apply andb_prop in Ht as [? ?]. by apply call_KKTLiveChatSDK_progress.
  - destruct (getInstance_ok _ Hw) as (i & f & w1 & Hg & _).
    unfold reference, bind. rewrite Hg. eauto.
  - apply andb_prop in Ht as [? ?]. by apply call_StateManager_progress.
Qed.

(** ** Pushing a sequence of messages *)

Lemma pushMessages_ok ps : forall w i f old,
  heap w !! i = Some (OStateManager f) ->
  heap w !! messages f = Some (OArray old) ->
  forallb (is_message w) ps = true ->
  exists w' f',
    pushMessages i ps w = Some (tt, w') /\
    heap w' !! i = Some (OStateManager f') /\
    heap w' !! messages f' = Some (OArray (old ++ ps)) /\
    connectionStatus f' = connectionStatus f /\
    attachments f' = attachments f /\
    StateManager_instance w' = StateManager_instance w /\
    (forall l o, heap w !! l = Some o -> l <> i -> heap w' !! l = Some o).
Proof.
  induction ps as [|p ps IH]; intros w i f old Hf Hold Hps.
  - exists w, f. rewrite app_nil_r. by split_and!.
  - cbn [forallb] in Hps. apply andb_prop in Hps as [Hp Hps].
    apply is_message_true in Hp as [m Hp].
    cbn [pushMessages]. unfold bind.
    rewrite (pushMessage_run _ _ _ Hf _ _ _ Hp Hold).
    set (w1 := {| heap := _ |}).
    assert (forall l o, heap w !! l = Some o -> l <> i ->
                        heap w1 !! l = Some o) as Hframe.
    { intros l o Hl Hne. cbn. heap_solve. }
    edestruct (IH w1 i) as (w' & f' & Hr & Hf' & Hm' & Hs' & Ha' & Hi' & Hfr').
    + cbn. eapply lookup_store_eq, lookup_alloc_old, Hf.
    + cbn. rewrite lookup_store_ne by (apply lookup_lt_Some in Hf; lia).
      apply lookup_alloc.
    + apply forallb_forall. intros q Hq.
      rewrite forallb_forall in Hps. specialize (Hps q Hq).
      apply is_message_true in Hps as [mq Hmq]. unfold is_message.
      rewrite (Hframe _ _ Hmq); [done|]. congruence.
    + exists w', f'. rewrite Hr. split_and!; try done.
      * by rewrite <- app_assoc in Hm'.
      * intros l o Hl Hne. apply Hfr'; [|done]. by apply Hframe.
Qed.

Lemma is_message_mono w w1 ps :
  (forall l o, heap w !! l = Some o -> heap w1 !! l = Some o) ->
  forallb (is_message w) ps = true -> forallb (is_message w1) ps = true.
Proof.
  intros Hmono. rewrite !forallb_forall. intros H q Hq.
  destruct (is_message_true _ _ (H q Hq)) as [m Hm].
  unfold is_message. by rewrite (Hmono _ _ Hm).
Qed.

(** ** The facade methods *)

Lemma shared_status_Some w s :
  shared_status w = Some s <->
  exists i f, StateManager_instance w = Some i /\
              heap w !! i = Some (OStateManager f) /\
              connectionStatus f = s.
Proof.
  unfold shared_status, instance_fields. split.
  - destruct (StateManager_instance w) as [i|]; [|done].
    destruct (heap w !! i) as [[| | |f| |]|] eqn:Hi; try done.
    intros [= <-]. eauto.
  - intros (i & f & -> & -> & <-). done.
Qed.

(** A status change made by a [SessionHandler]: the accessor, then one
    [setConnectionStatus] on the instance. *)
Lemma SessionHandler_set_status w h (status : ConnectionStatus) :
  wf w -> heap w !! h = Some OSessionHandler ->
  exists i w',
    (SessionHandler_receiver h ;;
     i <- StateManager.getInstance ;;
     StateManager.setConnectionStatus i status) w = Some (tt, w') /\
    StateManager_instance w' = Some i /\
    calls w' = calls w ++
               [EvGetInstance; EvCall i (MSetConnectionStatus status)] /\
    console w' = console w /\
    shared_status w' = Some status.
Proof.
  intros Hw Hh.
  destruct (getInstance_ok _ Hw)
    as (i & f & w1 & Hg & Hw1 & Hi & Hf & Hcalls & Hcons & Hmono).
  eexists i, _. split.
  { unfold SessionHandler_receiver, load, bind, ret. rewrite Hh.
    cbv beta iota. rewrite Hg. apply (setConnectionStatus_run _ _ _ Hf). }
  cbn. split_and!; try done.
  - by rewrite Hcalls, <- app_assoc.
  - apply shared_status_Some. eexists i, _. cbn.
    split_and!; [done|eapply lookup_store_eq, Hf|done].
Qed.

Lemma never_connected_init : never_connected init_world.
Proof. intros l f. cbn. by rewrite lookup_nil. Qed.

(** The getters of a [SessionHandler] return the arrays of the shared
    instance. *)
Lemma SessionHandler_getMessages_ok w s :
  wf w -> heap w !! s = Some OSessionHandler ->
  exists a elems w',
    SessionHandler.getMessages s w = Some (a, w') /\
    heap w' !! a = Some (OArray elems) /\
    (forall l o, heap w !! l = Some o -> heap w' !! l = Some o) /\
    (forall old, shared_messages w = Some old -> elems = old).
Proof.
  intros Hw Hs.
  destruct (getInstance_ok _ Hw)
    as (i & f & w1 & Hg & Hw1 & Hi & Hf & _ & _ & Hmono).
  destruct (wf_arrays _ Hw1 _ _ Hf) as (ms & ats & Hms & _ & _).
  eexists (messages f), ms, _. split.
  { unfold SessionHandler.getMessages, SessionHandler_receiver, load, bind, ret.
    rewrite Hs. cbv beta iota. rewrite Hg.
    apply (getMessages_run _ _ _ Hf). }
  cbn. split_and!; try done.
  intros old (j & g & Hj & Hgj & Hold)%shared_messages_Some.
  rewrite (getInstance_stored _ _ Hj) in Hg. simplify_eq. cbn in *.
  congruence.
Qed.

Lemma SessionHandler_getAttachments_ok w s :
  wf w -> heap w !! s = Some OSessionHandler ->
  exists a elems w',
    SessionHandler.getAttachments s w = Some (a, w') /\
    heap w' !! a = Some (OArray elems).
Proof.
  intros Hw Hs.
  destruct (getInstance_ok _ Hw)
    as (i & f & w1 & Hg & Hw1 & Hi & Hf & _ & _ & Hmono).
  destruct (wf_arrays _ Hw1 _ _ Hf) as (ms & ats & _ & Hats & _).
  exists (attachments f), ats,
    {| heap := heap w1;
       StateManager_instance := StateManager_instance w1;
       console := console w1;
       calls := calls w1 ++ [EvCall i MGetAttachments] |}. split.
  2:{ cbn. exact Hats. }
  unfold SessionHandler.getAttachments, SessionHandler_receiver, load, bind,
    ret.
  rewrite Hs. cbv beta iota. rewrite Hg.
  apply (getAttachments_run _ _ _ Hf).
Qed.

Lemma SessionHandler_sendMessage_ok w s p :
  wf w -> heap w !! s = Some OSessionHandler -> is_message w p = true ->
  exists w' old,
    SessionHandler.sendMessage s p w = Some (tt, w') /\
    wf w' /\
    shared_messages w' = Some (old ++ [p]) /\
    (forall l o, heap w !! l = Some o -> frozen o = true ->
                 heap w' !! l = Some o).
Proof.
  intros Hw Hs [m Hp]%is_message_true.
  destruct (getInstance_ok _ Hw)
    as (i & f & w1 & Hg & Hw1 & Hi & Hf & _ & _ & Hmono).
  destruct (wf_arrays _ Hw1 _ _ Hf) as (old & ats & Hold & _ & _).
  assert (exists w', SessionHandler.sendMessage s p w = Some (tt, w') /\
                     shared_messages w' = Some (old ++ [p])) as (w' & Hr & Hsh).
  { eexists. split.
    - unfold SessionHandler.sendMessage, SessionHandler_receiver, load, bind,
        ret.
      rewrite Hs. cbv beta iota. rewrite Hg.
      apply (pushMessage_run _ _ _ Hf _ _ _ (Hmono _ _ Hp) Hold).
    - apply shared_messages_Some.
      exists i, {| connectionStatus := connectionStatus f;
                   messages := length (heap w1);
                   attachments := attachments f |}.
      cbn. split; [done|]. heap_solve. }
  assert (changes true w w') as Hc.
  { apply (call_SessionHandler_changes true s (SendMessage p) w VUndefined).
    unfold call_SessionHandler, undefined, bind. by rewrite Hr. }
  exists w', old. split_and!; try done.
  - exact (changes_wf _ _ _ Hw Hc).
  - intros l o. by apply (changes_frozen true).
Qed.

(** What the script prints. *)
Example main_console (T1 T2 : Z) :
  (fun r => console (snd r)) <$> main T1 T2 init_world =
  Some [[LStr "KKTLiveChatSDK constructor"];
        [LStr "SessionHandler constructor"];
        [LStr "Pushing message:"; LObj (OMessage (hello T1))];
        [LStr "Pushing message:"; LObj (OMessage (help T2))];
        [LStr (String newline "Messages to send:")];
        [LObj (OMessage (hello T1))];
        [LObj (OMessage (help T2))]].
Proof. reflexivity. Qed.

(** * The properties of the specification *)

(** ** Singleton identity *)

(** C1.  Take any state in which the static field [instance] is still
    undefined, and call [StateManager.getInstance()] one or more times.
    The first call constructs the instance (a reference that did not exist
    before) and stores it in the static field; all calls return that one
    reference, and the heap has grown by exactly one [StateManager] and its
    two arrays however many calls were made.  Whatever operations run
    afterwards, the accessor still returns the same reference.  A status set
    or a message pushed through the reference returned by one call is read
    back through the reference returned by another. *)
Theorem C1_singleton_identity (w : World) (n : nat) :
  StateManager_instance w = None ->
  exists i w',
    getInstances (S n) w = Some (repeat i (S n), w') /\
    heap w !! i = None /\
    heap w' = heap w ++ [OArray []; OArray [];
                         OStateManager (fresh_fields (length (heap w))
                                                     (S (length (heap w))))] /\
    heap w' !! i = Some (OStateManager (fresh_fields (length (heap w))
                                                     (S (length (heap w))))) /\
    StateManager_instance w' = Some i /\
    (forall ops vs w2,
        run ops w' = Some (vs, w2) ->
        evalM StateManager.getInstance w2 = Some i) /\
    (forall status,
        evalM (a <- StateManager.getInstance ;;
               b <- StateManager.getInstance ;;
               StateManager.setConnectionStatus a status ;;
               StateManager.getConnectionStatus b) w' = Some status) /\
    (forall p o,
        heap w' !! p = Some o ->
        evalM (a <- StateManager.getInstance ;;
               b <- StateManager.getInstance ;;
               StateManager.pushMessage a p ;;
               readMessages b) w' = Some [p]).
Proof.
  intros Hnone.
  exists (S (S (length (heap w)))).
  cbn [getInstances]. unfold bind at 1. rewrite (getInstance_first _ Hnone).
  edestruct (getInstances_stored n) as (w' & Hr & Hh & Hinst & Hc);
    [|unfold bind; rewrite Hr]; [done|].
  cbn in Hh.
  assert (heap w' !! S (S (length (heap w))) =
          Some (OStateManager (fresh_fields (length (heap w))
                                            (S (length (heap w)))))) as Hi.
  { rewrite Hh. heap_solve. }
  assert (heap w' !! length (heap w) = Some (OArray [])) as Hm.
  { rewrite Hh. heap_solve. }
  exists w'. split_and!; try done.
  - apply lookup_ge_None. lia.
  - intros ops vs w2 Hrun. unfold evalM.
    by rewrite (getInstance_stored _ _
                  (changes_instance _ _ _ _ (run_changes _ _ _ _ Hrun) Hinst)).
  - intros status. unfold evalM, bind.
    rewrite (getInstance_stored _ _ Hinst).
    erewrite getInstance_stored by done.
    erewrite setConnectionStatus_run by (cbn; exact Hi).
    by erewrite getConnectionStatus_run
      by (cbn; eapply lookup_store_eq, Hi).
  - intros p o Hp. unfold evalM, bind.
    rewrite (getInstance_stored _ _ Hinst).
    erewrite getInstance_stored by done.
    erewrite pushMessage_run; [|cbn; exact Hi|cbn; exact Hp|cbn; exact Hm].
    erewrite readMessages_run; [done| |]; cbn.
    + eapply lookup_store_eq, lookup_alloc_old, Hi.
    + cbn. rewrite lookup_store_ne, lookup_alloc; [done|].
      apply lookup_lt_Some in Hi. lia.
Qed.

Lemma C1_witness :
  StateManager_instance init_world = None /\
  exists i w', getInstances 3 init_world = Some ([i; i; i], w') /\
               StateManager_instance w' = Some i.
Proof.
  split; [reflexivity|].
  destruct (C1_singleton_identity init_world 2 eq_refl)
    as (i & w' & Hcalls & _ & _ & _ & Hstored & _).
  exists i, w'. split; [exact Hcalls | exact Hstored].
Defined.

(** ** Append-order preservation *)

(** C2.  In any reachable state, take message objects [ps] (with distinct
    content or not) and push them one after the other on the instance that
    the accessor returns.  [getMessages()] then returns an array that holds
    the messages that were there before, followed by exactly the references
    [ps] in the order in which they were pushed; when the instance is
    constructed by this very accessor call nothing was there before, so the
    array is exactly [ps].  Each pushed object is what it was before the
    calls: no field value has changed. *)
Theorem C2_append_order (ops : list Op) (vs : list Value) (w : World)
    (ps : list loc) :
  run ops init_world = Some (vs, w) ->
  forallb (is_message w) ps = true ->
  exists i w1 old a w2,
    StateManager.getInstance w = Some (i, w1) /\
    evalM (readMessages i) w1 = Some old /\
    (StateManager_instance w = None -> old = []) /\
    (pushMessages i ps ;; StateManager.getMessages i) w1 = Some (a, w2) /\
    heap w2 !! a = Some (OArray (old ++ ps)) /\
    Forall (fun p => heap w2 !! p = heap w !! p) ps.
Proof.
  intros Hw%reachable_wf Hps.
  destruct (getInstance_ok _ Hw)
    as (i & f & w1 & Hg & Hw1 & Hi & Hf & _ & _ & Hmono).
  destruct (wf_arrays _ Hw1 _ _ Hf) as (old & ats & Hold & _ & _).
  destruct (pushMessages_ok ps w1 i f old Hf Hold)
    as (w' & f' & Hr & Hf' & Hm' & _ & _ & _ & Hframe).
  { by eapply is_message_mono. }
  exists i, w1, old, (messages f'),
    {| heap := heap w';
       StateManager_instance := StateManager_instance w';
       console := console w';
       calls := calls w' ++ [EvCall i MGetMessages] |}.
  split_and!; try done.
  - unfold evalM. by rewrite (readMessages_run _ _ _ _ Hf Hold).
  - intros Hnone. rewrite (getInstance_first _ Hnone) in Hg.
    simplify_eq. cbn in *. heap_cases; bounds; cbn in *; try done; lia.
  - unfold bind. rewrite Hr. apply (getMessages_run _ _ _ Hf').
  - apply Forall_forall. intros p Hp%list_elem_of_In. cbn.
    rewrite forallb_forall in Hps.
    destruct (is_message_true _ _ (Hps p Hp)) as [m Hm].
    rewrite Hm. apply Hframe; [by apply Hmono|].
    apply Hmono in Hm. congruence.
Qed.

Lemma C2_witness :
  forallb (is_message sample_world) [4; 5] = true /\
  exists i w1 a w2,
    (pushMessages i [4; 5] ;; StateManager.getMessages i) w1 =
      Some (a, w2) /\
    heap w2 !! a = Some (OArray [4; 5]).
Proof.
  split; [reflexivity|].
  destruct (C2_append_order sample_ops sample_values sample_world [4; 5]
              eq_refl eq_refl)
    as (i & w1 & old & a & w2 & Hget & Hold & _ & Hpush & Ha & _).
  exists i, w1, a, w2. split; [exact Hpush|].
  vm_compute in Hget. injection Hget as <- <-.
  vm_compute in Hold. injection Hold as <-.
  exact Ha.
Defined.

(** ** connect and disconnect *)

(** C3.  In any reachable state, [connect()] on a [SessionHandler] returns
    and leaves the shared connection status at ["connecting"], not
    ["connected"]; [disconnect()] leaves it at ["disconnected"].  Each of
    them calls the accessor and then makes exactly one call on the instance
    it returned, the [setConnectionStatus] with that status. *)
Theorem C3_connect_disconnect (ops : list Op) (vs : list Value) (w : World)
    (h : loc) :
  run ops init_world = Some (vs, w) ->
  is_SessionHandler w h = true ->
  (exists i w',
      SessionHandler.connect h w = Some (tt, w') /\
      StateManager_instance w' = Some i /\
      calls w' = calls w ++
                 [EvGetInstance; EvCall i (MSetConnectionStatus Connecting)] /\
      evalM observeStatus w' = Some Connecting /\
      evalM observeStatus w' <> Some Connected) /\
  (exists i w',
      SessionHandler.disconnect h w = Some (tt, w') /\
      StateManager_instance w' = Some i /\
      calls w' = calls w ++
                 [EvGetInstance; EvCall i (MSetConnectionStatus Disconnected)] /\
      evalM observeStatus w' = Some Disconnected).
Proof.
  intros Hw%reachable_wf Hh%is_SessionHandler_true. split.
  - destruct (SessionHandler_set_status w h Connecting Hw Hh)
      as (i & w' & Hr & Hi & Hc & _ & Hs).
    exists i, w'. rewrite (observe_status _ _ Hi), Hs. by split_and!.
  - destruct (SessionHandler_set_status w h Disconnected Hw Hh)
      as (i & w' & Hr & Hi & Hc & _ & Hs).
    exists i, w'. rewrite (observe_status _ _ Hi), Hs. by split_and!.
Qed.

Lemma C3_witness :
  is_SessionHandler sample_world 1 = true /\
  exists w', SessionHandler.connect 1 sample_world = Some (tt, w') /\
             evalM observeStatus w' = Some Connecting.
Proof.
  split; [reflexivity|].
  destruct (C3_connect_disconnect sample_ops sample_values sample_world 1
              eq_refl eq_refl)
    as [(i & w' & Hconnect & _ & _ & Hstatus & _) _].
  exists w'. split; [exact Hconnect | exact Hstatus].
Defined.

(** ** Cross-facade visibility *)

(** C4.  In any reachable state, let [s1] and [s2] be [SessionHandler]
    objects (two different ones, or the same one) and [p] a message.
    [s1.sendMessage(p)] returns; and after any further operations
    whatsoever, [s2.getMessages()] returns an array that contains [p], with
    the object behind [p] unchanged.  Both facades look at the one shared
    state. *)
Theorem C4_cross_facade (ops : list Op) (vs : list Value) (w : World)
    (s1 s2 p : loc) :
  run ops init_world = Some (vs, w) ->
  is_SessionHandler w s1 = true ->
  is_SessionHandler w s2 = true ->
  is_message w p = true ->
  exists w1,
    SessionHandler.sendMessage s1 p w = Some (tt, w1) /\
    forall ops' vs' w2,
      run ops' w1 = Some (vs', w2) ->
      exists a elems w3,
        SessionHandler.getMessages s2 w2 = Some (a, w3) /\
        heap w3 !! a = Some (OArray elems) /\
        p ∈ elems /\
        heap w3 !! p = heap w !! p.
Proof.
  intros Hw%reachable_wf Hs1%is_SessionHandler_true Hs2%is_SessionHandler_true
    Hp.
  destruct (SessionHandler_sendMessage_ok _ _ _ Hw Hs1 Hp)
    as (w1 & old & Hr & Hw1 & Hsh & Hfr).
  apply is_message_true in Hp as [m Hp].
  exists w1. split; [done|]. intros ops' vs' w2 Hrun.
  pose proof (run_changes _ _ _ _ Hrun) as Hc.
  pose proof (changes_wf _ _ _ Hw1 Hc) as Hw2.
  destruct (changes_messages_grow _ _ _ _ Hw1 Hc Hsh) as (new & Hnew & Hpre).
  assert (heap w2 !! s2 = Some OSessionHandler) as Hs2'.
  { eapply changes_frozen; eauto. }
  destruct (SessionHandler_getMessages_ok _ _ Hw2 Hs2')
    as (a & elems & w3 & Hget & Ha & Hmono & Hsame).
  exists a, elems, w3. split_and!; try done.
  - rewrite (Hsame _ Hnew). destruct Hpre as [k ->].
    rewrite !elem_of_app, list_elem_of_singleton. by left; right.
  - rewrite Hp. apply Hmono. eapply changes_frozen; eauto.
Qed.

Lemma C4_witness :
  is_SessionHandler sample_world 0 = true /\
  is_SessionHandler sample_world 1 = true /\
  is_message sample_world 4 = true /\
  exists w1 a elems w3,
    SessionHandler.sendMessage 0 4 sample_world = Some (tt, w1) /\
    SessionHandler.getMessages 1 w1 = Some (a, w3) /\
    heap w3 !! a = Some (OArray elems) /\
    4 ∈ elems.
Proof.
  split_and!; try reflexivity.
  destruct (C4_cross_facade sample_ops sample_values sample_world 0 1 4
              eq_refl eq_refl eq_refl eq_refl)
    as (w1 & Hsend & Hlater).
  destruct (Hlater [] [] w1 eq_refl) as (a & elems & w3 & Hget & Ha & Hin & _).
  exists w1, a, elems, w3. split_and!; assumption.
Defined.

(** ** Status overwrite *)

(** C5.  On any [StateManager] object and for any two statuses [A] and [B]
    (equal or not), [setConnectionStatus(A)], then
    [setConnectionStatus(B)], then [getConnectionStatus()] all return, and
    the status read is [B].  No transition is refused. *)
Theorem C5_status_overwrite (w : World) (this : loc) (A B : ConnectionStatus) :
  is_StateManager w this = true ->
  evalM (StateManager.setConnectionStatus this A ;;
         StateManager.setConnectionStatus this B ;;
         StateManager.getConnectionStatus this) w = Some B.
Proof.
  intros [f Hf]%is_StateManager_true.
  unfold evalM, bind.
  rewrite (setConnectionStatus_run _ _ _ Hf).
  erewrite setConnectionStatus_run by (cbn; eapply lookup_store_eq, Hf).
  by erewrite getConnectionStatus_run
    by (cbn; eapply lookup_store_eq, lookup_store_eq, Hf).
Qed.

Lemma C5_witness :
  is_StateManager sample_world 9 = true /\
  evalM (StateManager.setConnectionStatus 9 Disconnected ;;
         StateManager.setConnectionStatus 9 Connected ;;
         StateManager.getConnectionStatus 9) sample_world = Some Connected.
Proof.
  split; [reflexivity|].
  exact (C5_status_overwrite sample_world 9 Disconnected Connected eq_refl).
Defined.

(** ** The script *)

(** C6.  Run from the initial state, with [T1] and [T2] the two readings
    of the clock, the script constructs the [KKTLiveChatSDK], connects and
    sends the two messages.  The connection status is ["connecting"] right
    after [connect()] and still at the end, and [getMessages()] on the SDK
    returns an array of exactly two references, which point to the message
    "Hello, how are you?" of "John Doe" at [T1] and to the message "I need
    your help to fix my computer" of "John Doe" at [T2], in that order. *)
Theorem C6_end_to_end (T1 T2 : Z) :
  exists sdk m1 m2 a w,
    main T1 T2 init_world = Some (sdk, w) /\
    evalM (main_connect ;; observeStatus) init_world = Some Connecting /\
    evalM observeStatus w = Some Connecting /\
    evalM (KKTLiveChatSDK.getMessages sdk) w = Some (Some a) /\
    heap w !! a = Some (OArray [m1; m2]) /\
    heap w !! m1 = Some (OMessage (hello T1)) /\
    heap w !! m2 = Some (OMessage (help T2)) /\
    evalM observeMessages w = Some [m1; m2].
Proof.
  exists 0, 5, 7, 8.
  destruct (main T1 T2 init_world) as [[sdk w]|] eqn:Hmain;
    vm_compute in Hmain; [|discriminate].
  injection Hmain as <- <-.
  eexists. split; [reflexivity|].
  split_and!; vm_compute; reflexivity.
Qed.

(** ** The status is never "connected" *)

(** C7.  In every state reached from the initial state by operations of
    the two facades only (their constructors and their six methods, on
    whatever objects and in whatever order), the connection status read
    through the accessor exists and is not ["connected"]. *)
Theorem C7_never_connected (ops : list Op) (vs : list Value) (w : World) :
  forallb is_facade_op ops = true ->
  run ops init_world = Some (vs, w) ->
  exists s, evalM observeStatus w = Some s /\ s <> Connected.
Proof.
  intros Hfacade Hrun.
  pose proof (reachable_wf _ _ _ Hrun) as Hw.
  pose proof (changes_never_connected _ _
                (run_facade_changes _ _ _ _ Hfacade Hrun)
                never_connected_init) as Hn.
  destruct (getInstance_ok _ Hw) as (i & f & w1 & Hg & _ & _ & Hf & _).
  destruct (getInstance_change true _ _ _ Hg) as [Hc _].
  exists (connectionStatus f). split.
  - unfold observeStatus, evalM, bind. rewrite Hg.
    by rewrite (getConnectionStatus_run _ _ _ Hf).
  - eapply (change_never_connected _ _ Hc Hn), Hf.
Qed.

Lemma C7_witness :
  forallb is_facade_op sample_facade_ops = true /\
  run sample_facade_ops init_world =
    Some (sample_facade_values, sample_facade_world) /\
  exists s, evalM observeStatus sample_facade_world = Some s /\
            s <> Connected.
Proof.
  split; [reflexivity|]. split; [reflexivity|].
  exact (C7_never_connected sample_facade_ops sample_facade_values
           sample_facade_world eq_refl eq_refl).
Defined.

(** ** Independent channels *)

(** C8.  On the [StateManager] object of any reachable state,
    [pushAttachment] returns and leaves the message sequence and the
    connection status as they were, the attachment sequence being extended
    by the attachment; and [pushMessage] of a message returns and leaves
    the attachment sequence and the connection status as they were, the
    message sequence being extended by the message. *)
Theorem C8_independent_channels (ops : list Op) (vs : list Value) (w : World)
    (i : loc) :
  run ops init_world = Some (vs, w) ->
  is_StateManager w i = true ->
  exists (s : ConnectionStatus) (ms ats : list loc),
    evalM (StateManager.getConnectionStatus i) w = Some s /\
    evalM (readMessages i) w = Some ms /\
    evalM (readAttachments i) w = Some ats /\
    (forall p, exists w',
        StateManager.pushAttachment i p w = Some (tt, w') /\
        evalM (readMessages i) w' = Some ms /\
        evalM (StateManager.getConnectionStatus i) w' = Some s /\
        evalM (readAttachments i) w' = Some (ats ++ [p])) /\
    (forall p, is_message w p = true -> exists w',
        StateManager.pushMessage i p w = Some (tt, w') /\
        evalM (readAttachments i) w' = Some ats /\
        evalM (StateManager.getConnectionStatus i) w' = Some s /\
        evalM (readMessages i) w' = Some (ms ++ [p])).
Proof.
  intros Hw%reachable_wf [f Hf]%is_StateManager_true.
  destruct (wf_arrays _ Hw _ _ Hf) as (ms & ats & Hms & Hats & Hne).
  assert (i <> attachments f) as Hia by congruence.
  assert (i <> messages f) as Him by congruence.
  exists (connectionStatus f), ms, ats. unfold evalM. split_and!.
  - by rewrite (getConnectionStatus_run _ _ _ Hf).
  - by rewrite (readMessages_run _ _ _ _ Hf Hms).
  - by rewrite (readAttachments_run _ _ _ _ Hf Hats).
  - intros p. eexists. split; [apply (pushAttachment_run _ _ _ Hf _ _ Hats)|].
    set (w' := {| heap := _ |}).
    assert (heap w' !! i = Some (OStateManager f)) as Hf'.
    { cbn. heap_solve. }
    assert (heap w' !! messages f = Some (OArray ms)) as Hms'.
    { cbn. heap_solve. }
    assert (heap w' !! attachments f = Some (OArray (ats ++ [p]))) as Hats'.
    { cbn. heap_solve. }
    rewrite (getConnectionStatus_run _ _ _ Hf').
    rewrite (readMessages_run _ _ _ _ Hf' Hms').
    by rewrite (readAttachments_run _ _ _ _ Hf' Hats').
  - intros p [m Hp]%is_message_true. eexists.
    split; [apply (pushMessage_run _ _ _ Hf _ _ _ Hp Hms)|].
    set (f' := {| connectionStatus := connectionStatus f;
                  messages := length (heap w);
                  attachments := attachments f |}).
    set (w' := {| heap := _ |}).
    assert (heap w' !! i = Some (OStateManager f')) as Hf'.
    { cbn. heap_solve. }
    assert (heap w' !! messages f' = Some (OArray (ms ++ [p]))) as Hms'.
    { cbn. heap_solve. }
    assert (heap w' !! attachments f' = Some (OArray ats)) as Hats'.
    { cbn. heap_solve. }
    rewrite (getConnectionStatus_run _ _ _ Hf').
    rewrite (readMessages_run _ _ _ _ Hf' Hms').
    by rewrite (readAttachments_run _ _ _ _ Hf' Hats').
Qed.

Lemma C8_witness :
  is_StateManager sample_world 9 = true /\
  is_message sample_world 4 = true /\
  (exists w', StateManager.pushAttachment 9 6 sample_world = Some (tt, w') /\
              evalM (readMessages 9) w' = evalM (readMessages 9) sample_world) /\
  (exists w', StateManager.pushMessage 9 4 sample_world = Some (tt, w') /\
              evalM (readAttachments 9) w' =
              evalM (readAttachments 9) sample_world).
Proof.
  split; [reflexivity|]. split; [reflexivity|].
  destruct (C8_independent_channels sample_ops sample_values sample_world 9
              eq_refl eq_refl)
    as (s & ms & ats & _ & Hms & Hats & HpushA & HpushM).
  split.
  - destruct (HpushA 6) as (w' & Hr & Hms' & _).
    exists w'. split; [exact Hr|]. by rewrite Hms, Hms'.
  - destruct (HpushM 4 eq_refl) as (w' & Hr & Hats' & _).
    exists w'. split; [exact Hr|]. by rewrite Hats, Hats'.
Defined.

(** ** No operation fails *)

(** C9.  In every reachable state, every public operation of the three
    classes that is applied to a receiver of its class and to arguments of
    its parameter types returns; none gets stuck and none inspects its
    argument.  Every [KKTLiveChatSDK] object owns a [SessionHandler], so the
    optional chaining always finds its target: [getMessages()] and
    [getAttachments()] on it return an array and not [undefined]. *)
Theorem C9_no_failure (ops : list Op) (vs : list Value) (w : World) :
  run ops init_world = Some (vs, w) ->
  (forall op, well_typed w op = true ->
              exists v w', step op w = Some (v, w')) /\
  (forall sdk, is_KKTLiveChatSDK w sdk = true ->
     (exists h, heap w !! sdk = Some (OKKTLiveChatSDK (Some h)) /\
                is_SessionHandler w h = true) /\
     (exists a elems w',
         KKTLiveChatSDK.getMessages sdk w = Some (Some a, w') /\
         heap w' !! a = Some (OArray elems)) /\
     (exists a elems w',
         KKTLiveChatSDK.getAttachments sdk w = Some (Some a, w') /\
         heap w' !! a = Some (OArray elems))).
Proof.
  intros Hw%reachable_wf. split.
  - intros op. by apply step_progress.
  - intros sdk [h Hsdk]%is_KKTLiveChatSDK_true.
    destruct (wf_owned _ Hw _ _ Hsdk) as (s & -> & Hs).
    split_and!.
    + exists s. split; [done|]. unfold is_SessionHandler. by rewrite Hs.
    + destruct (SessionHandler_getMessages_ok _ _ Hw Hs)
        as (a & elems & w' & Hr & Ha & _).
      exists a, elems, w'. split; [|done].
      unfold KKTLiveChatSDK.getMessages, load_sessionHandler, load, bind, ret.
      rewrite Hsdk. cbn [optional_chain]. unfold bind. by rewrite Hr.
    + destruct (SessionHandler_getAttachments_ok _ _ Hw Hs)
        as (a & elems & w' & Hr & Ha).
      exists a, elems, w'. split; [|done].
      unfold KKTLiveChatSDK.getAttachments, load_sessionHandler, load, bind,
        ret.
      rewrite Hsdk. cbn [optional_chain]. unfold bind. by rewrite Hr.
Qed.

Lemma C9_witness :
  is_KKTLiveChatSDK sample_world 2 = true /\
  well_typed sample_world (OnKKTLiveChatSDK 2 (SendAttachment 6)) = true /\
  (exists v w',
      step (OnKKTLiveChatSDK 2 (SendAttachment 6)) sample_world =
      Some (v, w')) /\
  (exists a w', KKTLiveChatSDK.getMessages 2 sample_world = Some (Some a, w')).
Proof.
  split; [reflexivity|]. split; [reflexivity|].
  destruct (C9_no_failure sample_ops sample_values sample_world eq_refl)
    as [Hstep Hsdk].
  split.
  - exact (Hstep (OnKKTLiveChatSDK 2 (SendAttachment 6)) eq_refl).
  - destruct (Hsdk 2 eq_refl) as (_ & (a & elems & w' & Hget & _) & _).
    by exists a, w'.
Defined.

(** ** The initial state of the instance *)

(** C10.  [new StateManager()] takes no argument and returns in every
    state; the object it makes has the status ["disconnected"] and two empty
    arrays.  So when the accessor constructs the instance, the status read
    through it is ["disconnected"] and both sequences are empty. *)
Theorem C10_initial_state (w : World) :
  (exists i w',
      StateManager.new w = Some (i, w') /\
      evalM (StateManager.getConnectionStatus i) w' = Some Disconnected /\
      evalM (readMessages i) w' = Some [] /\
      evalM (readAttachments i) w' = Some []) /\
  (StateManager_instance w = None ->
   evalM observeStatus w = Some Disconnected /\
   evalM observeMessages w = Some [] /\
   evalM observeAttachments w = Some []).
Proof.
  assert (forall inst cons cs,
             let i := S (S (length (heap w))) in
             let w' :=
               {| heap := heap w ++
                          [OArray []; OArray [];
                           OStateManager
                             (fresh_fields (length (heap w))
                                           (S (length (heap w))))];
                  StateManager_instance := inst;
                  console := cons;
                  calls := cs |} in
             evalM (StateManager.getConnectionStatus i) w' =
               Some Disconnected /\
             evalM (readMessages i) w' = Some [] /\
             evalM (readAttachments i) w' = Some []) as Hobs.
  { intros inst cons cs i w'.
    assert (heap w' !! i =
            Some (OStateManager (fresh_fields (length (heap w))
                                              (S (length (heap w)))))) as Hi.
    { cbn. heap_solve. }
    assert (heap w' !! length (heap w) = Some (OArray [])) as Hm.
    { cbn. heap_solve. }
    assert (heap w' !! S (length (heap w)) = Some (OArray [])) as Ha.
    { cbn. heap_solve. }
    unfold evalM.
    rewrite (getConnectionStatus_run _ _ _ Hi).
    rewrite (readMessages_run _ _ _ _ Hi Hm).
    by rewrite (readAttachments_run _ _ _ _ Hi Ha). }
  split.
  - eexists _, _. split; [apply new_run|]. apply Hobs.
  - intros Hnone. unfold observeStatus, observeMessages, observeAttachments,
      evalM, bind.
    rewrite (getInstance_first _ Hnone). apply Hobs.
Qed.

Lemma C10_witness :
  StateManager_instance init_world = None /\
  evalM observeStatus init_world = Some Disconnected /\
  evalM observeMessages init_world = Some [] /\
  evalM observeAttachments init_world = Some [].
Proof.
  split; [reflexivity|].
  exact (proj2 (C10_initial_state init_world) eq_refl).
Defined.

(** * Further properties *)

(** ** What a method that returns has done *)

Lemma call_StateManager_inv this m w v w' :
  call_StateManager this m w = Some (v, w') ->
  exists f,
    heap w !! this = Some (OStateManager f) /\
    StateManager_instance w' = StateManager_instance w /\
    calls w' = calls w ++ [EvCall this m] /\
    match m with
    | MSetConnectionStatus s =>
        v = VUndefined /\ console w' = console w /\
        heap w' = <[this := OStateManager
                      {| connectionStatus := s;
                         messages := messages f;
                         attachments := attachments f |}]> (heap w)
    | MGetConnectionStatus =>
        v = VStatus (connectionStatus f) /\ console w' = console w /\
        heap w' = heap w
    | MPushMessage p =>
        exists o old,
          heap w !! p = Some o /\
          heap w !! messages f = Some (OArray old) /\
          v = VUndefined /\
          console w' = console w ++ [[LStr "Pushing message:"; LObj o]] /\
          heap w' = <[this := OStateManager
                        {| connectionStatus := connectionStatus f;
                           messages := length (heap w);
                           attachments := attachments f |}]>
                      (heap w ++ [OArray (old ++ [p])])
    | MGetMessages =>
        v = VRef (messages f) /\ console w' = console w /\ heap w' = heap w
    | MPushAttachment p =>
        exists old,
          heap w !! attachments f = Some (OArray old) /\
          v = VUndefined /\ console w' = console w /\
          heap w' = <[attachments f := OArray (old ++ [p])]> (heap w)
    | MGetAttachments =>
        v = VRef (attachments f) /\ console w' = console w /\ heap w' = heap w
    end.
Proof.
  destruct (heap w !! this) as [[| | |f| |]|] eqn:Hthis;
    try (destruct m; stuck Hthis).
  intros Hcall. exists f. split; [done|]. revert Hcall.
  destruct m as [s| |p| |p|]; cbn; unfold undefined, reference, bind.
  - rewrite (setConnectionStatus_run _ _ _ Hthis). by intros [= <- <-].
  - rewrite (getConnectionStatus_run _ _ _ Hthis). by intros [= <- <-].
  - destruct (heap w !! p) as [o|] eqn:Hp; [|stuck Hthis].
    destruct (heap w !! messages f) as [[| |old| | |]|] eqn:Ha;
      try (unfold StateManager.pushMessage, load_fields, load_array, load,
             bind, record, console_log;
           cbn; rewrite Hp; cbn; rewrite Hthis; cbn; by rewrite Ha).
    rewrite (pushMessage_run _ _ _ Hthis _ _ _ Hp Ha). intros [= <- <-].
    cbn. split_and!; try done. by exists o, old.
  - rewrite (getMessages_run _ _ _ Hthis). by intros [= <- <-].
  - destruct (heap w !! attachments f) as [[| |old| | |]|] eqn:Ha;
      try (unfold StateManager.pushAttachment, load_fields, load_array, load,
             bind, record;
           cbn; rewrite Hthis; cbn; by rewrite Ha).
    rewrite (pushAttachment_run _ _ _ Hthis _ _ Ha). intros [= <- <-].
    cbn. split_and!; try done. by exists old.
  - rewrite (getAttachments_run _ _ _ Hthis). by intros [= <- <-].
Qed.

Lemma call_SessionHandler_inv this c w v w' :
  call_SessionHandler this c w = Some (v, w') ->
  heap w !! this = Some OSessionHandler /\
  exists i w1,
    StateManager.getInstance w = Some (i, w1) /\
    call_StateManager i (method_of c) w1 = Some (v, w').
Proof.
  rewrite call_SessionHandler_unfold. unfold bind at 1.
  destruct (SessionHandler_receiver this w) as [[u w0]|] eqn:Hr; [|done].
  apply SessionHandler_receiver_inv in Hr as [Hthis ->].
  unfold bind.
  destruct (StateManager.getInstance w) as [[i w1]|] eqn:Hi; [|done].
  intros Hc. split; [done|]. by exists i, w1.
Qed.

Lemma call_KKTLiveChatSDK_inv this c w v w' :
  call_KKTLiveChatSDK this c w = Some (v, w') ->
  exists h,
    heap w !! this = Some (OKKTLiveChatSDK h) /\
    match h with
    | Some t => call_SessionHandler t c w = Some (v, w')
    | None => v = VUndefined /\ w' = w
    end.
Proof.
  rewrite call_KKTLiveChatSDK_unfold. unfold bind.
  destruct (load_sessionHandler this w) as [[h w0]|] eqn:Hl; [|done].
  apply load_sessionHandler_inv in Hl as [Hthis ->].
  intros Hc. exists h. split; [done|].
  destruct h as [t|]; [done|]. by injection Hc as <- <-.
Qed.

(** Where the accessor leaves the world. *)
Lemma getInstance_inv w i w' :
  StateManager.getInstance w = Some (i, w') ->
  StateManager_instance w' = Some i /\
  calls w' = calls w ++ [EvGetInstance] /\
  console w' = console w /\
  ((StateManager_instance w = Some i /\ heap w' = heap w) \/
   (StateManager_instance w = None /\
    i = S (S (length (heap w))) /\
    heap w' = heap w ++
              [OArray []; OArray [];
               OStateManager (fresh_fields (length (heap w))
                                           (S (length (heap w))))])).
Proof.
  destruct (StateManager_instance w) as [j|] eqn:E.
  - rewrite (getInstance_stored _ _ E). intros [= <- <-]. cbn.
    split_and!; try done. by left.
  - rewrite (getInstance_first _ E). intros [= <- <-]. cbn.
    split_and!; try done. by right.
Qed.

(** The four ways in which an operation returns in a well-formed world. *)
Lemma step_cases op w v w' :
  wf w ->
  step op w = Some (v, w') ->
  (op_method op = None /\ op <> GetInstance /\ quiet w w') \/
  (op = GetInstance /\ exists i, StateManager.getInstance w = Some (i, w') /\
                                 v = VRef i) \/
  (exists m i w1,
      op_method op = Some m /\ is_facade_op op = true /\
      StateManager.getInstance w = Some (i, w1) /\
      call_StateManager i m w1 = Some (v, w')) \/
  (exists this m, op = OnStateManager this m /\
                  call_StateManager this m w = Some (v, w')).
Proof.
  intros Hw.
  destruct op as [m|a| | |this c|this c| |this m]; unfold step.
  - intros [= <- <-]. left. split_and!; [done|done|].
    unfold quiet. cbn. split_and!; [done|done|].
    exists [OMessage m], []. rewrite app_nil_r.
    split_and!; try done. by repeat constructor.
  - intros [= <- <-]. left. split_and!; [done|done|].
    unfold quiet. cbn. split_and!; [done|done|].
    exists [OAttachment a], []. rewrite app_nil_r.
    split_and!; try done. by repeat constructor.
  - unfold reference, bind. rewrite SessionHandler_new_run.
    intros [= <- <-]. left. split_and!; [done|done|].
    unfold quiet. cbn. split_and!; [done|done|].
    do 2 eexists. split_and!; [reflexivity|reflexivity|..];
      repeat constructor. by eexists.
  - unfold reference, bind. rewrite KKTLiveChatSDK_new_run.
    intros [= <- <-]. left. split_and!; [done|done|].
    unfold quiet. cbn. split_and!; [done|done|].
    do 2 eexists. split_and!; [reflexivity|reflexivity|..];
      repeat constructor; by eexists.
  - intros (_ & i & w1 & Hg & Hc)%call_SessionHandler_inv.
    right; right; left. by exists (method_of c), i, w1.
  - intros (h & Hthis & Hc)%call_KKTLiveChatSDK_inv.
    destruct (wf_owned _ Hw _ _ Hthis) as (s & -> & Hs).
    apply call_SessionHandler_inv in Hc as (_ & i & w1 & Hg & Hc).
    right; right; left. by exists (method_of c), i, w1.
  - unfold reference, bind.
    destruct (StateManager.getInstance w) as [[i w1]|] eqn:Hi; [|done].
    intros [= <- <-]. right; left. split; [done|]. by exists i.
  - intros Hc. right; right; right. by exists this, m.
Qed.

Lemma step_wf op w v w' : wf w -> step op w = Some (v, w') -> wf w'.
Proof. intros Hw Hs. eapply changes_wf; eauto using step_changes. Qed.

(** ** The abstract state of a world *)

Lemma abstraction_ext w w' :
  heap w' = heap w -> StateManager_instance w' = StateManager_instance w ->
  abstraction w' = abstraction w.
Proof.
  intros Hh Hi.
  unfold abstraction, shared_status, shared_messages, shared_attachments,
    instance_fields, array_at.
  by rewrite Hh, Hi.
Qed.

Lemma abstraction_none w :
  StateManager_instance w = None -> abstraction w = abstract_init.
Proof.
  intros Hi.
  unfold abstraction, shared_status, shared_messages, shared_attachments,
    instance_fields.
  by rewrite Hi.
Qed.

Lemma abstraction_instance w i f ms ats :
  StateManager_instance w = Some i ->
  heap w !! i = Some (OStateManager f) ->
  heap w !! messages f = Some (OArray ms) ->
  heap w !! attachments f = Some (OArray ats) ->
  abstraction w = {| a_status := connectionStatus f;
                     a_messages := ms;
                     a_attachments := ats |}.
Proof.
  intros Hi Hf Hms Hats.
  unfold abstraction, shared_status, shared_messages, shared_attachments,
    instance_fields, array_at.
  by rewrite Hi, Hf, Hms, Hats.
Qed.

(** A well-formed world either has no [StateManager] yet, or has the
    instance with its two arrays. *)
Lemma wf_cases w :
  wf w ->
  StateManager_instance w = None \/
  exists i f ms ats,
    StateManager_instance w = Some i /\
    heap w !! i = Some (OStateManager f) /\
    heap w !! messages f = Some (OArray ms) /\
    heap w !! attachments f = Some (OArray ats) /\
    messages f <> attachments f.
Proof.
  intros Hw. destruct (StateManager_instance w) as [i|] eqn:Hi; [right|by left].
  destruct (wf_instance _ Hw _ Hi) as [f Hf].
  destruct (wf_arrays _ Hw _ _ Hf) as (ms & ats & Hms & Hats & Hne).
  by exists i, f, ms, ats.
Qed.

Lemma quiet_abstraction w w' :
  wf w -> quiet w w' -> abstraction w' = abstraction w.
Proof.
  intros Hw (Hinst & _ & objs & logs & Hh & _ & _ & _).
  destruct (wf_cases _ Hw) as [Hnone|(i & f & ms & ats & Hi & Hf & Hms & Hats & _)].
  - rewrite !abstraction_none; congruence.
  - rewrite (abstraction_instance w i f ms ats) by done.
    apply (abstraction_instance w' i f ms ats); rewrite ?Hh;
      try congruence; by apply lookup_app_l_Some.
Qed.

Lemma getInstance_abstraction w i w' :
  StateManager.getInstance w = Some (i, w') -> abstraction w' = abstraction w.
Proof.
  intros (Hi & _ & _ & [[Hold Hh]|(Hnone & -> & Hh)])%getInstance_inv.
  - apply abstraction_ext; congruence.
  - rewrite (abstraction_none w Hnone).
    apply (abstraction_instance w' (S (S (length (heap w))))
             (fresh_fields (length (heap w)) (S (length (heap w)))));
      rewrite ?Hh; cbn; try done; heap_solve.
Qed.

Lemma method_abstraction this m w v w' :
  wf w -> call_StateManager this m w = Some (v, w') ->
  abstraction w' = apply_method m (abstraction w).
Proof.
  intros Hw (f & Hf & Hinst & _ & Hm)%call_StateManager_inv.
  pose proof (wf_single _ Hw _ _ Hf) as Hi.
  destruct (wf_arrays _ Hw _ _ Hf) as (ms & ats & Hms & Hats & Hne).
  assert (this <> messages f) by congruence.
  assert (this <> attachments f) by congruence.
  rewrite (abstraction_instance w this f ms ats) by done.
  destruct m as [s| |p| |p|]; cbn.
  - destruct Hm as (_ & _ & Hh).
    apply (abstraction_instance w' this
               {| connectionStatus := s; messages := messages f; attachments := attachments f |});
      rewrite ?Hh; [congruence|..]; cbn; heap_solve.
  - destruct Hm as (_ & _ & Hh).
    apply (abstraction_instance w' this
               f);
      rewrite ?Hh; [congruence|..]; cbn; heap_solve.
  - destruct Hm as (o & old & Hp & Hold & _ & _ & Hh).
    assert (old = ms) as -> by congruence.
    apply (abstraction_instance w' this
               {| connectionStatus := connectionStatus f; messages := length (heap w); attachments := attachments f |});
      rewrite ?Hh; [congruence|..]; cbn; heap_solve.
  - destruct Hm as (_ & _ & Hh).
    apply (abstraction_instance w' this
               f);
      rewrite ?Hh; [congruence|..]; cbn; heap_solve.
  - destruct Hm as (old & Hold & _ & _ & Hh).
    assert (old = ats) as -> by congruence.
    apply (abstraction_instance w' this
               f);
      rewrite ?Hh; [congruence|..]; cbn; heap_solve.
  - destruct Hm as (_ & _ & Hh).
    apply (abstraction_instance w' this
               f);
      rewrite ?Hh; [congruence|..]; cbn; heap_solve.
Qed.

Lemma step_abstraction op w v w' :
  wf w -> step op w = Some (v, w') ->
  abstraction w' = abstract_step (abstraction w) op.
Proof.
  intros Hw Hs. unfold abstract_step.
  destruct (step_cases _ _ _ _ Hw Hs)
    as [(Hm & _ & Hq)|[(-> & i & Hg & _)
       |[(m & i & w1 & Hm & _ & Hg & Hc)|(this & m & -> & Hc)]]].
  - rewrite Hm. by apply quiet_abstraction.
  - by apply getInstance_abstraction in Hg.
  - rewrite Hm, <- (getInstance_abstraction _ _ _ Hg).
    eapply method_abstraction; [|exact Hc].
    destruct (getInstance_change false _ _ _ Hg) as [Hch _].
    by eapply change_wf.
  - cbn. by eapply method_abstraction.
Qed.

Lemma run_abstraction ops : forall w vs w',
  wf w -> run ops w = Some (vs, w') ->
  abstraction w' = fold_left abstract_step ops (abstraction w).
Proof.
  induction ops as [|op ops IH]; intros w vs w' Hw.
  - by intros [= <- <-].
  - intros (v & w1 & vs' & Hs & Hr & _)%run_cons_inv. cbn [fold_left].
    rewrite <- (step_abstraction _ _ _ _ Hw Hs).
    eapply IH; [|exact Hr]. by eapply step_wf.
Qed.

(** What is read through the accessor is the abstract state. *)
Lemma observe_abstraction w :
  wf w ->
  evalM observeStatus w = Some (a_status (abstraction w)) /\
  evalM observeMessages w = Some (a_messages (abstraction w)) /\
  evalM observeAttachments w = Some (a_attachments (abstraction w)).
Proof.
  intros Hw.
  destruct (getInstance_ok _ Hw)
    as (i & f & w1 & Hg & Hw1 & Hi & Hf & _ & _ & _).
  destruct (wf_arrays _ Hw1 _ _ Hf) as (ms & ats & Hms & Hats & _).
  rewrite <- (getInstance_abstraction _ _ _ Hg).
  rewrite (abstraction_instance w1 i f ms ats) by done. cbn.
  unfold observeStatus, observeMessages, observeAttachments, evalM, bind.
  rewrite Hg.
  rewrite (getConnectionStatus_run _ _ _ Hf).
  rewrite (readMessages_run _ _ _ _ Hf Hms).
  by rewrite (readAttachments_run _ _ _ _ Hf Hats).
Qed.



(** ** The sequences only grow *)

Lemma abstract_step_grows a op :
  a_messages a `prefix_of` a_messages (abstract_step a op) /\
  a_attachments a `prefix_of` a_attachments (abstract_step a op).
Proof.
  unfold abstract_step. destruct (op_method op) as [[]|]; cbn;
    split; try done; by apply prefix_app_r.
Qed.

Lemma abstract_fold_grows ops : forall a,
  a_messages a `prefix_of` a_messages (fold_left abstract_step ops a) /\
  a_attachments a `prefix_of` a_attachments (fold_left abstract_step ops a).
Proof.
  induction ops as [|op ops IH]; intros a; [done|]. cbn [fold_left].
  destruct (abstract_step_grows a op) as [Hm Ha].
  destruct (IH (abstract_step a op)) as [Hm' Ha'].
  split; by etrans.
Qed.

(** X2.  Neither sequence ever loses or reorders an element: whatever
    operations run between two readings, the message sequence of the first
    reading is an initial part of that of the second, and the same holds
    for the attachment sequence. *)
Theorem X2_append_only (ops ops' : list Op) (vs vs' : list Value)
    (w w' : World) :
  run ops init_world = Some (vs, w) ->
  run ops' w = Some (vs', w') ->
  exists ms ms' ats ats',
    evalM observeMessages w = Some ms /\
    evalM observeMessages w' = Some ms' /\
    ms `prefix_of` ms' /\
    evalM observeAttachments w = Some ats /\
    evalM observeAttachments w' = Some ats' /\
    ats `prefix_of` ats'.
Proof.
  intros Hw%reachable_wf Hrun.
  pose proof (run_wf _ _ _ _ Hw Hrun) as Hw'.
  destruct (observe_abstraction _ Hw) as (_ & Hm & Ha).
  destruct (observe_abstraction _ Hw') as (_ & Hm' & Ha').
  rewrite (run_abstraction _ _ _ _ Hw Hrun) in Hm', Ha'.
  destruct (abstract_fold_grows ops' (abstraction w)) as [Pm Pa].
  eexists _, _, _, _. by split_and!.
Qed.

Lemma X2_witness :
  run sample_later_ops sample_world =
    Some (sample_later_values, sample_later_world) /\
  exists ms ms',
    evalM observeMessages sample_world = Some ms /\
    evalM observeMessages sample_later_world = Some ms' /\
    ms `prefix_of` ms'.
Proof.
  split; [reflexivity|].
  destruct (X2_append_only sample_ops sample_later_ops sample_values
              sample_later_values sample_world sample_later_world
              eq_refl eq_refl)
    as (ms & ms' & _ & _ & Hm & Hm' & Hp & _).
  by exists ms, ms'.
Defined.

(** ** One instance *)

Lemma run_calls_receiver ops : forall w vs w',
  wf w ->
  (forall r m, EvCall r m ∈ calls w -> StateManager_instance w = Some r) ->
  run ops w = Some (vs, w') ->
  forall r m, EvCall r m ∈ calls w' -> StateManager_instance w' = Some r.
Proof.
  induction ops as [|op ops IH]; intros w vs w' Hw Hc.
  - by intros [= <- <-].
  - intros (v & w1 & vs' & Hs & Hr & _)%run_cons_inv.
    eapply IH; [by eapply step_wf| |exact Hr]. clear IH Hr.
    intros r m.
    destruct (step_cases _ _ _ _ Hw Hs)
      as [(_ & _ & Hi & Hcalls & _)|[(-> & i & Hg & _)
         |[(m' & i & w0 & _ & _ & Hg & Hm)|(this & m' & -> & Hm)]]].
    + rewrite Hcalls, Hi. apply Hc.
    + apply getInstance_inv in Hg as (Hi & Hcalls & _ & Hcase).
      rewrite Hcalls, elem_of_app, list_elem_of_singleton.
      intros [Hin|?]; [|done]. specialize (Hc _ _ Hin).
      destruct Hcase as [[? _]|[? _]]; congruence.
    + apply getInstance_inv in Hg as (Hi & Hcalls & _ & Hcase).
      apply call_StateManager_inv in Hm as (f & _ & Hi' & Hcalls' & _).
      rewrite Hcalls', Hcalls, !elem_of_app, !list_elem_of_singleton.
      intros [[Hin|?]|?]; try done; [|simplify_eq; congruence].
      specialize (Hc _ _ Hin).
      destruct Hcase as [[? _]|[? _]]; congruence.
    + apply call_StateManager_inv in Hm as (f & Hf & Hi' & Hcalls' & _).
      pose proof (wf_single _ Hw _ _ Hf).
      rewrite Hcalls', elem_of_app, list_elem_of_singleton.
      intros [Hin|?]; [|simplify_eq; congruence].
      rewrite Hi'. by eapply Hc.
Qed.

(** X3.  In every state reached from the initial state by operations of
    the facades, calls of the accessor and calls of methods on a
    [StateManager], there is at most one [StateManager] object, the one in
    the static field: no facade ever makes a second one.  And every call of
    a [StateManager] method that was ever made, by a facade or directly, was
    made on that object. *)
Theorem X3_one_instance (ops : list Op) (vs : list Value) (w : World) :
  run ops init_world = Some (vs, w) ->
  (forall l l' f f',
      heap w !! l = Some (OStateManager f) ->
      heap w !! l' = Some (OStateManager f') ->
      l = l' /\ StateManager_instance w = Some l) /\
  (forall r m, EvCall r m ∈ calls w -> StateManager_instance w = Some r).
Proof.
  intros Hrun. pose proof (reachable_wf _ _ _ Hrun) as Hw. split.
  - intros l l' f f' Hl Hl'.
    pose proof (wf_single _ Hw _ _ Hl). pose proof (wf_single _ Hw _ _ Hl').
    split; congruence.
  - eapply run_calls_receiver; [apply wf_init| |exact Hrun].
    intros r m Hin. cbn in Hin. by apply elem_of_nil in Hin.
Qed.

Lemma X3_witness :
  run (sample_ops ++ sample_later_ops) init_world =
    Some (sample_values ++ sample_later_values, sample_later_world) /\
  forall r m, EvCall r m ∈ calls sample_later_world -> r = 9.
Proof.
  split; [reflexivity|].
  intros r m Hin.
  destruct (X3_one_instance (sample_ops ++ sample_later_ops)
              (sample_values ++ sample_later_values) sample_later_world
              eq_refl) as [_ Hcalls].
  specialize (Hcalls r m Hin). by injection Hcalls.
Defined.

(** ** Snapshots and live views *)

Lemma instance_fields_Some w f :
  instance_fields w = Some f <->
  exists i, StateManager_instance w = Some i /\
            heap w !! i = Some (OStateManager f).
Proof.
  unfold instance_fields. split.
  - destruct (StateManager_instance w) as [i|]; [|done].
    destruct (heap w !! i) as [[| | |g| |]|] eqn:Hi; try done.
    intros [= ->]. eauto.
  - intros (i & -> & ->). done.
Qed.

(** An array that is not the attachment array of the instance is left
    alone, and never becomes the attachment array. *)
Lemma change_keeps_array facade w w' a elems :
  wf w -> change facade w w' ->
  heap w !! a = Some (OArray elems) ->
  (forall f, instance_fields w = Some f -> a <> attachments f) ->
  heap w' !! a = Some (OArray elems) /\
  (forall f, instance_fields w' = Some f -> a <> attachments f).
Proof.
  intros Hw Hc Ha Hne.
  assert (forall i f, heap w !! i = Some (OStateManager f) ->
                      a <> i /\ a <> attachments f) as Hsm.
  { intros i f Hf. split; [congruence|]. apply Hne, instance_fields_Some.
    exists i. split; [|done]. by eapply wf_single. }
  setoid_rewrite instance_fields_Some. setoid_rewrite instance_fields_Some in Hne.
  destruct Hc as [Hh Hinst | o' Hk Hh Hinst | Hh Hinst | Hnone Hh Hinst
                 | i f s Hf Hfac Hh Hinst | i f old p Hf Hold Hh Hinst
                 | i f old p Hf Hold Hh Hinst];
    rewrite ?Hh, ?Hinst;
    try (destruct (Hsm _ _ Hf) as [Hai Haf]); clear Hw.
  - eauto.
  - split; [by apply lookup_app_l_Some|].
    intros g (j & Hj & Hg). heap_cases; eauto.
  - split; [by apply lookup_app_l_Some|].
    intros g (j & Hj & Hg). heap_cases; eauto.
  - split; [by apply lookup_app_l_Some|].
    intros g (j & Hj & Hg). heap_cases; bounds; cbn; try lia.
  - split; [heap_solve|].
    intros g (j & Hj & Hg). heap_cases; cbn; eauto.
  - split; [heap_solve|].
    intros g (j & Hj & Hg). heap_cases; cbn; eauto.
  - split; [heap_solve|].
    intros g (j & Hj & Hg). heap_cases; cbn; eauto.
Qed.

Lemma changes_keeps_array facade w w' a elems :
  wf w -> changes facade w w' ->
  heap w !! a = Some (OArray elems) ->
  (forall f, instance_fields w = Some f -> a <> attachments f) ->
  heap w' !! a = Some (OArray elems).
Proof.
  intros Hw Hc. induction Hc as [w|w1 w2 w3 H12 H23 IH]; [done|].
  intros Ha Hne.
  destruct (change_keeps_array _ _ _ _ _ Hw H12 Ha Hne) as [Ha' Hne'].
  apply IH; eauto using change_wf.
Qed.

(** The attachment field of the instance never changes. *)
Lemma change_attachments_field facade w w' f :
  wf w -> change facade w w' -> instance_fields w = Some f ->
  exists f', instance_fields w' = Some f' /\ attachments f' = attachments f.
Proof.
  intros Hw Hc (j & Hj & Hg)%instance_fields_Some.
  assert (forall i g, heap w !! i = Some (OStateManager g) -> i = j /\ g = f)
    as Hsame.
  { intros i g Hi. pose proof (wf_single _ Hw _ _ Hi). split; congruence. }
  destruct (wf_arrays _ Hw _ _ Hg) as (ms & ats & Hms & Hats & Hne).
  setoid_rewrite instance_fields_Some.
  destruct Hc as [Hh Hinst | o' Hk Hh Hinst | Hh Hinst | Hnone Hh Hinst
                 | i g s Hf Hfac Hh Hinst | i g old p Hf Hold Hh Hinst
                 | i g old p Hf Hold Hh Hinst];
    rewrite ?Hh, ?Hinst;
    try (destruct (Hsame _ _ Hf) as [-> ->]); clear Hw Hsame.
  - exists f. split; [|done]. by exists j.
  - exists f. split; [|done]. exists j. heap_solve.
  - exists f. split; [|done]. exists j. heap_solve.
  - congruence.
  - eexists. split; [exists j; split; [done|]; by eapply lookup_store_eq|done].
  - eexists. split; [exists j; split; [done|];
                     by eapply lookup_store_eq, lookup_alloc_old|done].
  - exists f. split; [|done]. exists j. split; [done|].
    rewrite lookup_store_ne; [done|congruence].
Qed.

Lemma changes_attachments_field facade w w' f :
  wf w -> changes facade w w' -> instance_fields w = Some f ->
  exists f', instance_fields w' = Some f' /\ attachments f' = attachments f.
Proof.
  intros Hw Hc. revert f. induction Hc as [w|w1 w2 w3 H12 H23 IH]; intros f Hf.
  - by exists f.
  - destruct (change_attachments_field _ _ _ _ Hw H12 Hf) as (g & Hg & Heq).
    destruct (IH (change_wf _ _ _ Hw H12) _ Hg) as (h & Hh & Heq').
    exists h. split; [done|congruence].
Qed.

Lemma wf_ext w w' :
  heap w' = heap w -> StateManager_instance w' = StateManager_instance w ->
  wf w -> wf w'.
Proof. intros Hh Hi [H1 H2 H3 H4]. split; rewrite ?Hh, ?Hi; done. Qed.

(** The two getters of a [SessionHandler], in full. *)
Lemma SessionHandler_getters w s :
  wf w -> heap w !! s = Some OSessionHandler ->
  exists i f ms ats w0,
    StateManager.getInstance w = Some (i, w0) /\
    wf w0 /\
    StateManager_instance w0 = Some i /\
    heap w0 !! i = Some (OStateManager f) /\
    heap w0 !! messages f = Some (OArray ms) /\
    heap w0 !! attachments f = Some (OArray ats) /\
    messages f <> attachments f /\
    SessionHandler.getMessages s w =
      Some (messages f,
            {| heap := heap w0;
               StateManager_instance := StateManager_instance w0;
               console := console w0;
               calls := calls w0 ++ [EvCall i MGetMessages] |}) /\
    SessionHandler.getAttachments s w =
      Some (attachments f,
            {| heap := heap w0;
               StateManager_instance := StateManager_instance w0;
               console := console w0;
               calls := calls w0 ++ [EvCall i MGetAttachments] |}).
Proof.
  intros Hw Hs.
  destruct (getInstance_ok _ Hw)
    as (i & f & w0 & Hg & Hw0 & Hi & Hf & _ & _ & _).
  destruct (wf_arrays _ Hw0 _ _ Hf) as (ms & ats & Hms & Hats & Hne).
  exists i, f, ms, ats, w0. split_and!; try done.
  - unfold SessionHandler.getMessages, SessionHandler_receiver, load, bind, ret.
    rewrite Hs. cbv beta iota. rewrite Hg.
    apply (getMessages_run _ _ _ Hf).
  - unfold SessionHandler.getAttachments, SessionHandler_receiver, load, bind,
      ret.
    rewrite Hs. cbv beta iota. rewrite Hg.
    apply (getAttachments_run _ _ _ Hf).
Qed.

(** X4.  The array that [getMessages()] returns is a snapshot: no later
    operation changes its contents.  After a further [sendMessage(p)],
    [getMessages()] returns another array, which holds the old elements
    followed by [p], while the array returned before still holds the old
    elements only. *)
Theorem X4_messages_snapshot (ops : list Op) (vs : list Value) (w : World)
    (s : loc) :
  run ops init_world = Some (vs, w) ->
  is_SessionHandler w s = true ->
  exists a elems w1,
    SessionHandler.getMessages s w = Some (a, w1) /\
    heap w1 !! a = Some (OArray elems) /\
    (forall ops' vs' w2,
        run ops' w1 = Some (vs', w2) ->
        heap w2 !! a = Some (OArray elems)) /\
    (forall p, is_message w p = true ->
       exists w2 a' w3,
         SessionHandler.sendMessage s p w1 = Some (tt, w2) /\
         SessionHandler.getMessages s w2 = Some (a', w3) /\
         a' <> a /\
         heap w3 !! a' = Some (OArray (elems ++ [p])) /\
         heap w3 !! a = Some (OArray elems)).
Proof.
  intros Hw%reachable_wf Hs%is_SessionHandler_true.
  destruct (SessionHandler_getters _ _ Hw Hs)
    as (i & f & elems & ats & w0 & Hg & Hw0 & Hi & Hf & Hms & Hats & Hne
        & Hget & _).
  destruct (getInstance_ok _ Hw) as (i' & f' & w0' & Hg' & _ & _ & _ & _ & _ & Hmono).
  rewrite Hg in Hg'. injection Hg' as <- <-.
  eexists (messages f), elems, _. split; [exact Hget|].
  set (w1 := {| heap := heap w0 |}).
  assert (wf w1) as Hw1 by (by apply (wf_ext w0)).
  assert (forall ops' vs' w2,
             run ops' w1 = Some (vs', w2) ->
             heap w2 !! messages f = Some (OArray elems)) as Hsnap.
  { intros ops' vs' w2 Hrun.
    eapply (changes_keeps_array false w1); eauto using run_changes.
    intros g (j & Hj & Hgj)%instance_fields_Some. cbn in Hj, Hgj.
    congruence. }
  split; [done|]. split; [done|].
  intros p [m Hp]%is_message_true.
  assert (heap w1 !! s = Some OSessionHandler) as Hs1 by (by apply Hmono).
  assert (is_message w1 p = true) as Hp1.
  { unfold is_message. cbn. by rewrite (Hmono _ _ Hp). }
  destruct (SessionHandler_sendMessage_ok _ _ _ Hw1 Hs1 Hp1)
    as (w2 & old & Hsend & Hw2 & Hsh & Hfr).
  assert (step (OnSessionHandler s (SendMessage p)) w1 = Some (VUndefined, w2))
    as Hstep.
  { unfold step, call_SessionHandler, undefined, bind. by rewrite Hsend. }
  pose proof (step_abstraction _ _ _ _ Hw1 Hstep) as Habs.
  rewrite (abstraction_instance w1 i f elems ats) in Habs by done.
  assert (old ++ [p] = elems ++ [p]) as Hold.
  { unfold abstraction in Habs. rewrite Hsh in Habs. cbn in Habs.
    by injection Habs. }
  rewrite Hold in Hsh.
  assert (heap w2 !! s = Some OSessionHandler) as Hs2 by (by apply Hfr).
  destruct (SessionHandler_getMessages_ok _ _ Hw2 Hs2)
    as (a' & elems' & w3 & Hget' & Ha' & _ & Hsame).
  rewrite (Hsame _ Hsh) in Ha'.
  assert (heap w3 !! messages f = Some (OArray elems)) as Hstill.
  { apply (Hsnap [OnSessionHandler s (SendMessage p);
                  OnSessionHandler s GetMessages]
                 [VUndefined; VRef a']).
    unfold run. cbn [mapM]. unfold bind. rewrite Hstep.
    unfold step, call_SessionHandler, reference, bind. by rewrite Hget'. }
  exists w2, a', w3. split_and!; try done.
  intros ->. rewrite Ha' in Hstill. injection Hstill as Heq.
  apply (f_equal length) in Heq. rewrite length_app in Heq. cbn in Heq. lia.
Qed.

Lemma X4_witness :
  is_SessionHandler sample_world 0 = true /\
  exists a elems w1,
    SessionHandler.getMessages 0 sample_world = Some (a, w1) /\
    heap w1 !! a = Some (OArray elems) /\
    forall ops' vs' w2,
      run ops' w1 = Some (vs', w2) -> heap w2 !! a = Some (OArray elems).
Proof.
  split; [reflexivity|].
  destruct (X4_messages_snapshot sample_ops sample_values sample_world 0
              eq_refl eq_refl)
    as (a & elems & w1 & Hget & Ha & Hsnap & _).
  by exists a, elems, w1.
Defined.

(** X5.  The array that [getAttachments()] returns is a live view: it is
    the same array at every later time, for every [SessionHandler], and at
    every later time it holds the attachment sequence as it then is. *)
Theorem X5_attachments_live (ops : list Op) (vs : list Value) (w : World)
    (s : loc) :
  run ops init_world = Some (vs, w) ->
  is_SessionHandler w s = true ->
  exists a w1,
    SessionHandler.getAttachments s w = Some (a, w1) /\
    forall ops' vs' w2,
      run ops' w1 = Some (vs', w2) ->
      exists ats,
        heap w2 !! a = Some (OArray ats) /\
        evalM observeAttachments w2 = Some ats /\
        forall s', is_SessionHandler w2 s' = true ->
                   evalM (SessionHandler.getAttachments s') w2 = Some a.
Proof.
  intros Hw%reachable_wf Hs%is_SessionHandler_true.
  destruct (SessionHandler_getters _ _ Hw Hs)
    as (i & f & ms & ats & w0 & Hg & Hw0 & Hi & Hf & Hms & Hats & Hne
        & _ & Hget).
  eexists (attachments f), _. split; [exact Hget|].
  set (w1 := {| heap := heap w0 |}).
  assert (wf w1) as Hw1 by (by apply (wf_ext w0)).
  intros ops' vs' w2 Hrun.
  pose proof (run_wf _ _ _ _ Hw1 Hrun) as Hw2.
  destruct (changes_attachments_field false w1 w2 f Hw1)
    as (f2 & (j & Hj & Hf2)%instance_fields_Some & Heq);
    [by eapply run_changes|apply instance_fields_Some; by exists i|].
  destruct (wf_arrays _ Hw2 _ _ Hf2) as (ms2 & ats2 & Hms2 & Hats2 & _).
  exists ats2. rewrite <- Heq. split_and!; [done| |].
  - destruct (observe_abstraction _ Hw2) as (_ & _ & ->).
    by rewrite (abstraction_instance w2 j f2 ms2 ats2).
  - intros s' Hs'%is_SessionHandler_true.
    destruct (SessionHandler_getters _ _ Hw2 Hs')
      as (i' & f' & ms' & ats' & w0' & Hg' & _ & _ & Hf' & _ & _ & _ & _
          & Hget').
    unfold evalM. rewrite Hget'. cbn.
    apply getInstance_inv in Hg' as (_ & _ & _ & [[Hi' Hh']|[Hnone _]]);
      [|congruence].
    rewrite Hh' in Hf'. congruence.
Qed.

Lemma X5_witness :
  is_SessionHandler sample_world 0 = true /\
  exists a w1,
    SessionHandler.getAttachments 0 sample_world = Some (a, w1) /\
    forall ops' vs' w2,
      run ops' w1 = Some (vs', w2) ->
      evalM (SessionHandler.getAttachments 1) w2 = Some a.
Proof.
  split; [reflexivity|].
  destruct (X5_attachments_live sample_ops sample_values sample_world 0
              eq_refl eq_refl) as (a & w1 & Hget & Hlive).
  exists a, w1. split; [exact Hget|].
  intros ops' vs' w2 Hrun.
  destruct (Hlive ops' vs' w2 Hrun) as (ats & _ & _ & Hsame).
  apply Hsame.
  assert (heap w1 !! 1 = Some OSessionHandler) as H1.
  { vm_compute in Hget. by injection Hget as <- <-. }
  unfold is_SessionHandler.
  by rewrite (changes_frozen false w1 w2 1 OSessionHandler
                (run_changes _ _ _ _ Hrun) H1 eq_refl).
Defined.

(** ** Every getter returns the shared arrays *)

(** X6.  In every reachable state, [getMessages()] on any
    [SessionHandler], [getMessages()] on any [KKTLiveChatSDK] and the
    accessor followed by [getMessages()] return one and the same array, and
    end in the same state; likewise for [getAttachments()].  When the
    instance exists already, a getter changes neither the heap nor the
    console. *)
Theorem X6_getters_agree (ops : list Op) (vs : list Value) (w : World)
    (s k : loc) :
  run ops init_world = Some (vs, w) ->
  is_SessionHandler w s = true ->
  is_KKTLiveChatSDK w k = true ->
  exists am aa wm wa ms ats,
    SessionHandler.getMessages s w = Some (am, wm) /\
    KKTLiveChatSDK.getMessages k w = Some (Some am, wm) /\
    (i <- StateManager.getInstance ;; StateManager.getMessages i) w =
      Some (am, wm) /\
    heap wm !! am = Some (OArray ms) /\
    evalM observeMessages w = Some ms /\
    SessionHandler.getAttachments s w = Some (aa, wa) /\
    KKTLiveChatSDK.getAttachments k w = Some (Some aa, wa) /\
    (i <- StateManager.getInstance ;; StateManager.getAttachments i) w =
      Some (aa, wa) /\
    heap wa !! aa = Some (OArray ats) /\
    evalM observeAttachments w = Some ats /\
    (StateManager_instance w <> None ->
     heap wm = heap w /\ console wm = console w /\
     heap wa = heap w /\ console wa = console w).
Proof.
  intros Hw%reachable_wf Hs%is_SessionHandler_true
    [h Hk]%is_KKTLiveChatSDK_true.
  destruct (wf_owned _ Hw _ _ Hk) as (t & -> & Ht).
  destruct (SessionHandler_getters _ _ Hw Hs)
    as (i & f & ms & ats & w0 & Hg & Hw0 & Hi & Hf & Hms & Hats & Hne
        & Hgm & Hga).
  destruct (SessionHandler_getters _ _ Hw Ht)
    as (i' & f' & ms' & ats' & w0' & Hg' & _ & _ & Hf' & _ & _ & _
        & Hgm' & Hga').
  rewrite Hg in Hg'. injection Hg' as <- <-.
  rewrite Hf in Hf'. injection Hf' as <-.
  eexists (messages f), (attachments f), _, _, ms, ats.
  split_and!; try done.
  - unfold KKTLiveChatSDK.getMessages, load_sessionHandler, load, bind, ret.
    rewrite Hk. cbn [optional_chain]. unfold bind. by rewrite Hgm'.
  - unfold bind. rewrite Hg. apply (getMessages_run _ _ _ Hf).
  - unfold observeMessages, evalM, bind. rewrite Hg.
    by rewrite (readMessages_run _ _ _ _ Hf Hms).
  - unfold KKTLiveChatSDK.getAttachments, load_sessionHandler, load, bind,
      ret.
    rewrite Hk. cbn [optional_chain]. unfold bind. by rewrite Hga'.
  - unfold bind. rewrite Hg. apply (getAttachments_run _ _ _ Hf).
  - unfold observeAttachments, evalM, bind. rewrite Hg.
    by rewrite (readAttachments_run _ _ _ _ Hf Hats).
  - intros Hsome. cbn.
    apply getInstance_inv in Hg as (_ & _ & Hc & [[_ Hh]|[Hnone _]]);
      [done|congruence].
Qed.

Lemma X6_witness :
  is_SessionHandler sample_world 1 = true /\
  is_KKTLiveChatSDK sample_world 2 = true /\
  exists am wm,
    SessionHandler.getMessages 1 sample_world = Some (am, wm) /\
    KKTLiveChatSDK.getMessages 2 sample_world = Some (Some am, wm).
Proof.
  split; [reflexivity|]. split; [reflexivity|].
  destruct (X6_getters_agree sample_ops sample_values sample_world 1 2
              eq_refl eq_refl eq_refl)
    as (am & aa & wm & wa & ms & ats & Hs & Hk & _).
  by exists am, wm.
Defined.

(** ** A getter on a fresh process *)

(** X7.  When no instance exists yet, a getter is what constructs it:
    [getMessages()] and [getAttachments()] on a [SessionHandler] return an
    empty array each, two different ones, and leave the static field set
    and the status ["disconnected"]. *)
Theorem X7_getter_constructs (ops : list Op) (vs : list Value) (w : World)
    (s : loc) :
  run ops init_world = Some (vs, w) ->
  is_SessionHandler w s = true ->
  StateManager_instance w = None ->
  exists am wm aa wa,
    SessionHandler.getMessages s w = Some (am, wm) /\
    heap wm !! am = Some (OArray []) /\
    heap w !! am = None /\
    StateManager_instance wm <> None /\
    evalM observeStatus wm = Some Disconnected /\
    SessionHandler.getAttachments s w = Some (aa, wa) /\
    heap wa !! aa = Some (OArray []) /\
    heap w !! aa = None /\
    StateManager_instance wa <> None /\
    am <> aa.
Proof.
  intros Hw%reachable_wf Hs%is_SessionHandler_true Hnone.
  destruct (SessionHandler_getters _ _ Hw Hs)
    as (i & f & ms & ats & w0 & Hg & Hw0 & Hi & Hf & Hms & Hats & Hne
        & Hgm & Hga).
  rewrite (getInstance_first _ Hnone) in Hg. injection Hg as <- <-.
  cbn in Hf, Hms, Hats, Hi.
  assert (f = fresh_fields (length (heap w)) (S (length (heap w)))) as ->.
  { heap_cases; bounds; try done; lia. }
  cbn in Hms, Hats, Hne.
  assert (ms = []) as -> by (heap_cases; bounds; try done; lia).
  assert (ats = []) as -> by (heap_cases; bounds; try done; lia).
  eexists _, _, _, _. split; [exact Hgm|].
  split_and!; cbn -[evalM observeStatus]; try done.
  - apply lookup_ge_None. lia.
  - erewrite observe_status by (cbn; reflexivity).
    apply shared_status_Some.
    exists (S (S (length (heap w)))),
      (fresh_fields (length (heap w)) (S (length (heap w)))).
    cbn. by split_and!.
  - apply lookup_ge_None. unfold fresh_fields. cbn. lia.
Qed.

Lemma X7_witness :
  run [NewSessionHandler] init_world = Some ([VRef 0], handler_world) /\
  is_SessionHandler handler_world 0 = true /\
  StateManager_instance handler_world = None /\
  exists am wm,
    SessionHandler.getMessages 0 handler_world = Some (am, wm) /\
    heap wm !! am = Some (OArray []).
Proof.
  split; [reflexivity|]. split; [reflexivity|]. split; [reflexivity|].
  destruct (X7_getter_constructs [NewSessionHandler] [VRef 0] handler_world
              0 eq_refl eq_refl eq_refl)
    as (am & wm & _ & _ & Hget & Ham & _).
  by exists am, wm.
Defined.

(** ** One call per facade method *)

(** X8.  In every reachable state, each of the six methods, called on a
    [SessionHandler] or on a [KKTLiveChatSDK] with arguments of the right
    types, returns after exactly two calls into [StateManager]: the
    accessor, and then the one method of the instance that the facade
    method stands for. *)
Theorem X8_one_call_each (ops : list Op) (vs : list Value) (w : World)
    (op : Op) (m : Method) :
  run ops init_world = Some (vs, w) ->
  is_facade_op op = true ->
  op_method op = Some m ->
  well_typed w op = true ->
  exists i v w',
    step op w = Some (v, w') /\
    StateManager_instance w' = Some i /\
    calls w' = calls w ++ [EvGetInstance; EvCall i m].
Proof.
  intros Hw%reachable_wf Hfacade Hm Ht.
  destruct (step_progress _ _ Hw Ht) as (v & w' & Hs).
  destruct (step_cases _ _ _ _ Hw Hs)
    as [(Hm' & _)|[(-> & _)
       |[(m' & i & w1 & Hm' & _ & Hg & Hc)|(this & m' & -> & _)]]];
    try done; try congruence.
  assert (m' = m) as -> by congruence.
  apply getInstance_inv in Hg as (Hi & Hcalls & _).
  apply call_StateManager_inv in Hc as (f & _ & Hi' & Hcalls' & _).
  exists i, v, w'. split_and!; [done|congruence|].
  by rewrite Hcalls', Hcalls, <- app_assoc.
Qed.

Lemma X8_witness :
  well_typed sample_world (OnKKTLiveChatSDK 2 (SendAttachment 6)) = true /\
  exists v w',
    step (OnKKTLiveChatSDK 2 (SendAttachment 6)) sample_world =
      Some (v, w') /\
    calls w' = calls sample_world ++
               [EvGetInstance; EvCall 9 (MPushAttachment 6)].
Proof.
  split; [reflexivity|].
  destruct (X8_one_call_each sample_ops sample_values sample_world
              (OnKKTLiveChatSDK 2 (SendAttachment 6)) (MPushAttachment 6)
              eq_refl eq_refl eq_refl eq_refl)
    as (i & v & w' & Hs & Hi & Hc).
  exists v, w'. split; [exact Hs|].
  assert (i = 9) as ->; [|exact Hc].
  vm_compute in Hs. injection Hs as <- <-. by injection Hi.
Defined.

(** ** The optional chaining *)

(** X9.  On a [KKTLiveChatSDK] object whose [sessionHandler] is undefined,
    every method returns [undefined] and does nothing at all: nothing is
    allocated, printed or called, not even the accessor.  The last
    statement of the script does not guard against this: with such an
    object it calls [forEach] on [undefined], and stops there. *)
Theorem X9_no_handler (w : World) (k : loc) (c : FacadeCall) :
  heap w !! k = Some (OKKTLiveChatSDK None) ->
  call_KKTLiveChatSDK k c w = Some (VUndefined, w) /\
  KKTLiveChatSDK.getMessages k w = Some (None, w) /\
  KKTLiveChatSDK.getAttachments k w = Some (None, w) /\
  main_print k w = None.
Proof.
  intros Hk. split_and!.
  - rewrite call_KKTLiveChatSDK_unfold.
    unfold load_sessionHandler, load, bind. by rewrite Hk.
  - unfold KKTLiveChatSDK.getMessages, load_sessionHandler, load, bind.
    by rewrite Hk.
  - unfold KKTLiveChatSDK.getAttachments, load_sessionHandler, load, bind.
    by rewrite Hk.
  - unfold main_print, KKTLiveChatSDK.getMessages, load_sessionHandler, load,
      bind, console_log. cbn. by rewrite Hk.
Qed.

Lemma X9_witness :
  heap orphan_world !! 0 = Some (OKKTLiveChatSDK None) /\
  call_KKTLiveChatSDK 0 (SendMessage 1) orphan_world =
    Some (VUndefined, orphan_world) /\
  main_print 0 orphan_world = None.
Proof.
  split; [reflexivity|].
  destruct (X9_no_handler orphan_world 0 (SendMessage 1) eq_refl)
    as (Hcall & _ & _ & Hprint).
  by split.
Defined.

(** ** The console and the message sequence *)










(** ** The constructor is public *)

(** X11.  Nothing stops a client from calling [new StateManager()] itself.
    In every reachable state this gives an object other than the one the
    accessor returns, and what is done to it is not shared: a status set on
    it and a message pushed on it are read back from it, but what is read
    through the accessor stays as it was. *)
Theorem X11_second_instance (ops : list Op) (vs : list Value) (w : World)
    (status : ConnectionStatus) (p : loc) :
  run ops init_world = Some (vs, w) ->
  is_message w p = true ->
  exists i w1 j w2 s ms,
    StateManager.getInstance w = Some (i, w1) /\
    StateManager.new w1 = Some (j, w2) /\
    j <> i /\
    evalM observeStatus w2 = Some s /\
    evalM observeMessages w2 = Some ms /\
    evalM (StateManager.setConnectionStatus j status ;;
           StateManager.getConnectionStatus j) w2 = Some status /\
    evalM (StateManager.setConnectionStatus j status ;; observeStatus) w2 =
      Some s /\
    evalM (StateManager.pushMessage j p ;; readMessages j) w2 = Some [p] /\
    evalM (StateManager.pushMessage j p ;; observeMessages) w2 = Some ms.
Proof.
  intros Hw%reachable_wf [m Hp]%is_message_true.
  destruct (getInstance_ok _ Hw)
    as (i & f & w1 & Hg & Hw1 & Hi & Hf & _ & _ & Hmono).
  destruct (wf_arrays _ Hw1 _ _ Hf) as (ms & ats & Hms & Hats & Hne).
  apply Hmono in Hp.
  exists i, w1. eexists _, _, (connectionStatus f), ms.
  split; [done|]. split; [apply new_run|].
  set (g := fresh_fields (length (heap w1)) (S (length (heap w1)))).
  set (j := S (S (length (heap w1)))).
  set (w2 := {| heap := _ |}).
  assert (j <> i) as Hji by (apply lookup_lt_Some in Hf; unfold j; lia).
  assert (StateManager_instance w2 = Some i) as Hi2 by done.
  assert (heap w2 !! i = Some (OStateManager f)) as Hf2.
  { cbn. heap_solve. }
  assert (heap w2 !! messages f = Some (OArray ms)) as Hms2.
  { cbn. heap_solve. }
  assert (heap w2 !! j = Some (OStateManager g)) as Hg2.
  { cbn. heap_solve. }
  assert (heap w2 !! messages g = Some (OArray [])) as Hgm2.
  { cbn. heap_solve. }
  assert (heap w2 !! p = Some (OMessage m)) as Hp2.
  { cbn. heap_solve. }
  assert (messages f <> j) as Hmj.
  { apply lookup_lt_Some in Hms. unfold j. lia. }
  split; [done|]. split_and!.
  - rewrite (observe_status _ _ Hi2). apply shared_status_Some. eauto.
  - rewrite (observe_messages _ _ Hi2). apply shared_messages_Some. eauto.
  - unfold evalM, bind. rewrite (setConnectionStatus_run _ _ _ Hg2).
    by erewrite getConnectionStatus_run
      by (cbn [heap]; eapply lookup_store_eq, Hg2).
  - unfold evalM, bind. rewrite (setConnectionStatus_run _ _ _ Hg2).
    fold (evalM observeStatus
            {| heap := <[j := OStateManager
                               {| connectionStatus := status;
                                  messages := messages g;
                                  attachments := attachments g |}]> (heap w2);
               StateManager_instance := StateManager_instance w2;
               console := console w2;
               calls := calls w2 ++ [EvCall j (MSetConnectionStatus status)] |}).
    erewrite observe_status by (cbn [StateManager_instance]; exact Hi2).
    apply shared_status_Some. exists i, f. cbn [heap StateManager_instance].
    split_and!; [done| |done]. by rewrite lookup_store_ne.
  - unfold evalM, bind. rewrite (pushMessage_run _ _ _ Hg2 _ _ _ Hp2 Hgm2).
    erewrite readMessages_run; [done| |]; cbn [heap messages].
    + eapply lookup_store_eq, lookup_alloc_old, Hg2.
    + unfold messages at 1.
      rewrite lookup_store_ne by (apply lookup_lt_Some in Hg2; lia).
      apply lookup_alloc.
  - unfold evalM, bind. rewrite (pushMessage_run _ _ _ Hg2 _ _ _ Hp2 Hgm2).
    match goal with
    | |- fst <$> observeMessages ?w3 = _ =>
        fold (evalM observeMessages w3);
        rewrite (observe_messages w3 i) by exact Hi2
    end.
    apply shared_messages_Some. exists i, f. cbn [heap StateManager_instance].
    split_and!; [done| |].
    + rewrite lookup_store_ne by done. by apply lookup_alloc_old.
    + rewrite lookup_store_ne by done. by apply lookup_alloc_old.
Qed.

Lemma X11_witness :
  is_message sample_world 4 = true /\
  exists i w1 j w2,
    StateManager.getInstance sample_world = Some (i, w1) /\
    StateManager.new w1 = Some (j, w2) /\
    j <> i /\
    evalM (StateManager.setConnectionStatus j Connected ;; observeStatus) w2 =
      evalM observeStatus w2.
Proof.
  split; [reflexivity|].
  destruct (X11_second_instance sample_ops sample_values sample_world
              Connected 4 eq_refl eq_refl)
    as (i & w1 & j & w2 & s & ms & Hg & Hn & Hji & Hs & _ & _ & Hs' & _).
  exists i, w1, j, w2. split_and!; try assumption. by rewrite Hs, Hs'.
Defined.

(** ** Ownership of the session handler *)

(** Where a [KKTLiveChatSDK] object of the new state comes from: it was
    there before, or it has just been constructed. *)
Lemma change_sdk_origin facade w w' k h :
  change facade w w' ->
  heap w' !! k = Some (OKKTLiveChatSDK (Some h)) ->
  heap w !! k = Some (OKKTLiveChatSDK (Some h)) \/
  (k = length (heap w) /\ h = S (length (heap w))).
Proof.
  intros Hc.
  destruct Hc as [Hh Hinst | o' Hk Hh Hinst | Hh Hinst | Hnone Hh Hinst
                 | i f s Hf Hfac Hh Hinst | i f old p Hf Hold Hh Hinst
                 | i f old p Hf Hold Hh Hinst];
    rewrite Hh; intros Hk1; heap_cases; auto.
Qed.

Lemma change_exclusive facade w w' :
  wf w -> change facade w w' ->
  (forall k k' h, heap w !! k = Some (OKKTLiveChatSDK (Some h)) ->
                  heap w !! k' = Some (OKKTLiveChatSDK (Some h)) -> k = k') ->
  forall k k' h, heap w' !! k = Some (OKKTLiveChatSDK (Some h)) ->
                 heap w' !! k' = Some (OKKTLiveChatSDK (Some h)) -> k = k'.
Proof.
  intros Hw Hc Hex k k' h Hk Hk'.
  assert (forall l t, heap w !! l = Some (OKKTLiveChatSDK (Some t)) ->
                      t < length (heap w)) as Hbound.
  { intros l t Hl. destruct (wf_owned _ Hw _ _ Hl) as (t' & [= <-] & Ht).
    by eapply lookup_lt_Some. }
  destruct (change_sdk_origin _ _ _ _ _ Hc Hk) as [Ho|[-> ->]];
    destruct (change_sdk_origin _ _ _ _ _ Hc Hk') as [Ho'|[-> Hh]].
  - by eapply Hex.
  - subst h. apply Hbound in Ho. lia.
  - apply Hbound in Ho'. lia.
  - done.
Qed.

Lemma run_exclusive ops : forall w vs w',
  wf w -> run ops w = Some (vs, w') ->
  (forall k k' h, heap w !! k = Some (OKKTLiveChatSDK (Some h)) ->
                  heap w !! k' = Some (OKKTLiveChatSDK (Some h)) -> k = k') ->
  forall k k' h, heap w' !! k = Some (OKKTLiveChatSDK (Some h)) ->
                 heap w' !! k' = Some (OKKTLiveChatSDK (Some h)) -> k = k'.
Proof.
  intros w vs w' Hw Hrun. apply run_changes in Hrun.
  induction Hrun as [w|w1 w2 w3 H12 H23 IH]; [done|].
  intros Hex. apply IH; eauto using change_wf, change_exclusive.
Qed.

(** X12.  In every reachable state each [KKTLiveChatSDK] object has a
    [SessionHandler] of its own: no two of them hold the same one.  And the
    one it holds is never replaced: after any further operations the object
    is as it was. *)
Theorem X12_own_handler (ops : list Op) (vs : list Value) (w : World) :
  run ops init_world = Some (vs, w) ->
  (forall k k' h,
      heap w !! k = Some (OKKTLiveChatSDK (Some h)) ->
      heap w !! k' = Some (OKKTLiveChatSDK (Some h)) ->
      k = k') /\
  (forall k h ops' vs' w',
      heap w !! k = Some (OKKTLiveChatSDK h) ->
      run ops' w = Some (vs', w') ->
      heap w' !! k = Some (OKKTLiveChatSDK h)).
Proof.
  intros Hrun. split.
  - eapply run_exclusive; [apply wf_init|exact Hrun|].
    intros k k' h Hk. cbn in Hk. by rewrite lookup_nil in Hk.
  - intros k h ops' vs' w' Hk Hrun'.
    by eapply changes_frozen; eauto using run_changes.
Qed.

Lemma X12_witness :
  run [NewKKTLiveChatSDK; NewKKTLiveChatSDK] init_world =
    Some ([VRef 0; VRef 2], two_sdk_world) /\
  heap two_sdk_world !! 0 = Some (OKKTLiveChatSDK (Some 1)) /\
  heap two_sdk_world !! 2 = Some (OKKTLiveChatSDK (Some 3)) /\
  forall k, heap two_sdk_world !! k = Some (OKKTLiveChatSDK (Some 1)) ->
            k = 0.
Proof.
  split; [reflexivity|]. split; [reflexivity|]. split; [reflexivity|].
  intros k Hk.
  exact (proj1 (X12_own_handler [NewKKTLiveChatSDK; NewKKTLiveChatSDK]
                  [VRef 0; VRef 2] two_sdk_world eq_refl) k 0 1 Hk eq_refl).
Defined.

(** ** Messages and attachments are never written *)

(** X13.  No operation writes to a message or to an attachment: an object
    of either kind that exists in a state is the same object, field by
    field, after any operations run from that state. *)
Theorem X13_payload_immutable (ops : list Op) (vs : list Value)
    (w w' : World) (p : loc) (o : Obj) :
  run ops w = Some (vs, w') ->
  heap w !! p = Some o ->
  is_message w p = true \/ is_attachment w p = true ->
  heap w' !! p = Some o.
Proof.
  intros Hrun Hp Hkind.
  eapply changes_frozen; eauto using run_changes.
  destruct Hkind as [[m Hm]%is_message_true|[a Ha]%is_attachment_true];
    rewrite Hp in *; by simplify_eq.
Qed.

Lemma X13_witness :
  is_attachment sample_world 6 = true /\
  heap sample_later_world !! 6 = Some (OAttachment sample_attachment).
Proof.
  split; [reflexivity|].
  exact (X13_payload_immutable sample_later_ops sample_later_values
           sample_world sample_later_world 6
           (OAttachment sample_attachment) eq_refl eq_refl
           (or_intror eq_refl)).
Defined.
